(** * HomeScreen: session guard and refresh coordinator

    A shallow embedding of the control flow of
    [src/components/Screens/HomeScreen.tsx]: the mount effect that loads
    the stored tokens, refreshes them and asks for the biometric check,
    and the focus effect that refetches the four data families when the
    filters changed.  Presentation (the JSX) is not modelled. *)

From Stdlib Require Import ZArith.
From stdpp Require Import base option strings list gmap.

Set Warnings "-register-all".

Local Open Scope string_scope.
Local Open Scope list_scope.

(** ** JavaScript values that the screen handles *)

Module Js.

(** What [JSON.parse] can return.  Numbers are kept as integers: the only
    thing the screen asks of a number is whether it is zero. *)
Inductive json : Type :=
| JNull
| JBool (b : bool)
| JNum (n : Z)
| JStr (s : string)
| JArr (items : list json)
| JObj (fields : list (string * json)).

(** A JavaScript value read from a parsed blob: [None] is [undefined]. *)
Definition value : Type := option json.

(** ToBoolean, as used by [&&] and [if]. *)
Definition truthy (v : value) : bool :=
  match v with
  | None => false
  | Some JNull => false
  | Some (JBool b) => b
  | Some (JNum n) => negb (n =? 0)%Z
  | Some (JStr s) => negb (String.eqb s "")
  | Some (JArr _) => true
  | Some (JObj _) => true
  end.

(** ToBoolean of a string that may be [undefined]. *)
Definition truthy_string (v : option string) : bool :=
  match v with
  | None => false
  | Some s => negb (String.eqb s "")
  end.

Fixpoint assoc (k : string) (fields : list (string * json)) : value :=
  match fields with
  | [] => None
  | (k', v) :: rest => if String.eqb k k' then Some v else assoc k rest
  end.

(** [v.k] for an own data property [k] of a parsed value that is not
    [null]: only objects carry the keys read here ([accessToken],
    [refreshToken]); on primitives and arrays the read gives [undefined]. *)
Definition prop (v : json) (k : string) : value :=
  match v with
  | JObj fields => assoc k fields
  | _ => None
  end.

(** A template-literal hole [${x}] for a string that may be [undefined]. *)
Definition hole (v : option string) : string :=
  match v with
  | None => "undefined"
  | Some s => s
  end.

End Js.

Import Js.

(** ** The collaborators of the screen *)

(** The item kept by [SecureStore] under [secureKeys.tokens] is a text; the
    screen only ever hands it to [JSON.parse], so a text is represented by
    what [JSON.parse] makes of it: a syntax error or a value. *)
Inductive stored : Type :=
| Malformed (syntaxError : string)
| Json (v : json).

(** The value of [axios.defaults.headers.Authorization]: the template
    [`Bearer ${token}`] with the interpolated value kept apart. *)
Inductive header : Type :=
| Bearer (token : value).

(** Spec, section 3: the token pair returned by the refresh endpoint. *)
Record Credential : Type := {
  accessToken : string;
  refreshToken : string;
  expiresAt : Z
}.

Definition credential_json (c : Credential) : json :=
  JObj [("accessToken", JStr (accessToken c));
        ("refreshToken", JStr (refreshToken c));
        ("expiresAt", JNum (expiresAt c))].

Inductive FetchFamily : Type :=
| NetWorth
| Accounts
| InsightCategories
| InsightBudgets.

(** How an awaited promise of a collaborator ends. *)
Inductive settled (A : Type) : Type :=
| Fulfilled (payload : A)
| Rejected (message : string).
Arguments Fulfilled {A} payload.
Arguments Rejected {A} message.

(** Everything observable that the screen does to the outside, in the
    order it does it.  Requests record the [Authorization] header that
    axios attaches at the moment the request is made. *)
Inductive effect : Type :=
| StoreGet
| FreshnessCheck (storageValue : json)
| RefreshCall (refreshTokenArg : value) (auth : option header)
| BiometricPrompt
| CurrenciesCall (auth : option header)
| FamilyCall (family : FetchFamily) (auth : option header)
| NavReset (route : string)
| ToastShow (title description : string).

(** ** State of the screen and of the globals it touches *)

Record Screen : Type := {
  secureStore : option stored;
  (** [axios.defaults.headers.Authorization] *)
  authorization : option header;
  (** [prevFiltersRef.current]; [None] is the initial [undefined] *)
  prevFiltersRef : option string;
  (** the [isActive] variable of each run of the focus callback *)
  isActive : list bool;
  (** [Promise.all] batches that have not settled, with the fingerprint
      of the run that started them *)
  pending : gmap nat string;
  (** the result set that each family's own model keeps *)
  familyResults : FetchFamily -> option string;
  trace : list effect;
  (** rejections of the un-awaited async functions *)
  unhandled : list string
}.

Definition with_store (x : option stored) (s : Screen) : Screen :=
  {| secureStore := x; authorization := authorization s;
     prevFiltersRef := prevFiltersRef s; isActive := isActive s;
     pending := pending s; familyResults := familyResults s;
     trace := trace s; unhandled := unhandled s |}.

Definition with_authorization (x : option header) (s : Screen) : Screen :=
  {| secureStore := secureStore s; authorization := x;
     prevFiltersRef := prevFiltersRef s; isActive := isActive s;
     pending := pending s; familyResults := familyResults s;
     trace := trace s; unhandled := unhandled s |}.

Definition with_prevFilters (x : option string) (s : Screen) : Screen :=
  {| secureStore := secureStore s; authorization := authorization s;
     prevFiltersRef := x; isActive := isActive s;
     pending := pending s; familyResults := familyResults s;
     trace := trace s; unhandled := unhandled s |}.

Definition with_isActive (x : list bool) (s : Screen) : Screen :=
  {| secureStore := secureStore s; authorization := authorization s;
     prevFiltersRef := prevFiltersRef s; isActive := x;
     pending := pending s; familyResults := familyResults s;
     trace := trace s; unhandled := unhandled s |}.

Definition with_pending (x : gmap nat string) (s : Screen) : Screen :=
  {| secureStore := secureStore s; authorization := authorization s;
     prevFiltersRef := prevFiltersRef s; isActive := isActive s;
     pending := x; familyResults := familyResults s;
     trace := trace s; unhandled := unhandled s |}.

Definition with_familyResults (x : FetchFamily -> option string) (s : Screen)
  : Screen :=
  {| secureStore := secureStore s; authorization := authorization s;
     prevFiltersRef := prevFiltersRef s; isActive := isActive s;
     pending := pending s; familyResults := x;
     trace := trace s; unhandled := unhandled s |}.

Definition with_trace (x : list effect) (s : Screen) : Screen :=
  {| secureStore := secureStore s; authorization := authorization s;
     prevFiltersRef := prevFiltersRef s; isActive := isActive s;
     pending := pending s; familyResults := familyResults s;
     trace := x; unhandled := unhandled s |}.

Definition with_unhandled (x : list string) (s : Screen) : Screen :=
  {| secureStore := secureStore s; authorization := authorization s;
     prevFiltersRef := prevFiltersRef s; isActive := isActive s;
     pending := pending s; familyResults := familyResults s;
     trace := trace s; unhandled := x |}.

(** ** A monad for async function bodies: state and exceptions *)

Inductive completion (A : Type) : Type :=
| Normal (a : A)
| Throw (message : string).
Arguments Normal {A} a.
Arguments Throw {A} message.

Definition Async (A : Type) : Type := Screen -> completion A * Screen.

Definition ret {A} (a : A) : Async A := fun s => (Normal a, s).

Definition bind {A B} (m : Async A) (k : A -> Async B) : Async B :=
  fun s =>
    match m s with
    | (Normal a, s') => k a s'
    | (Throw e, s') => (Throw e, s')
    end.

Definition throw {A} (message : string) : Async A :=
  fun s => (Throw message, s).

(** [try { body } catch (e) { handler(e.message) }] *)
Definition try_catch {A} (body : Async A) (handler : string -> Async A)
  : Async A :=
  fun s =>
    match body s with
    | (Normal a, s') => (Normal a, s')
    | (Throw e, s') => handler e s'
    end.

Definition emit (e : effect) : Async unit :=
  fun s => (Normal tt, with_trace (trace s ++ [e]) s).

Definition read {A} (f : Screen -> A) : Async A := fun s => (Normal (f s), s).

Definition modify (f : Screen -> Screen) : Async unit :=
  fun s => (Normal tt, f s).

Declare Scope async_scope.
Delimit Scope async_scope with async.
Notation "x <- m ;; k" := (bind m (fun x => k))
  (at level 100, m at next level, right associativity) : async_scope.
Notation "m ;; k" := (bind m (fun _ => k))
  (at level 100, right associativity) : async_scope.
Local Open Scope async_scope.

(** Calling an async function without awaiting it: a rejection of its
    promise is nobody's to catch. *)
Definition fire_and_forget (body : Async unit) (s : Screen) : Screen :=
  match body s with
  | (Normal _, s') => s'
  | (Throw e, s') => with_unhandled (unhandled s' ++ [e]) s'
  end.

(** ** SessionGuard: the mount effect *)

(** What [useSelector] hands to the component from
    [state.configuration], and the [translate] table. *)
Record Config : Type := {
  backendURL : option string;
  faceId : bool;
  translate : string -> string
}.

(** How the collaborators answer during one run of the mount effect. *)
Record Env : Type := {
  (** [TokenResponse.isTokenFresh], a function of the parsed blob and of
      the clock *)
  isTokenFresh : json -> bool;
  (** how [dispatch.firefly.getFreshAccessToken] ends *)
  refreshOutcome : settled Credential;
  (** [bioAuth.success] of [LocalAuthentication.authenticateAsync] *)
  bioSuccess : bool;
  (** how [dispatch.currencies.getCurrencies] ends *)
  currenciesOutcome : settled unit
}.

Module SessionGuard.

Definition getItemAsync : Async (option stored) :=
  emit StoreGet ;; read secureStore.

(** [JSON.parse(tokens)]: [null] is converted to the text ["null"], which
    parses to [null]; a text that is not JSON throws a [SyntaxError]. *)
Definition JSON_parse (tokens : option stored) : Async json :=
  match tokens with
  | None => ret JNull
  | Some (Malformed e) => throw e
  | Some (Json v) => ret v
  end.

Definition goToOauth : Async unit := emit (NavReset "oauth").

Definition authenticateAsync (env : Env) : Async bool :=
  emit BiometricPrompt ;; ret (bioSuccess env).

Definition faceIdCheck (cfg : Config) (env : Env) : Async unit :=
  if faceId cfg then
    success <- authenticateAsync env ;;
    if negb success then goToOauth else ret tt
  else ret tt.

Definition callIsTokenFresh (env : Env) (storageValue : json) : Async bool :=
  emit (FreshnessCheck storageValue) ;; ret (isTokenFresh env storageValue).

(** Modelled from the spec: the effect [firefly.getFreshAccessToken] is not
    part of this file.  Section 4.1, step 3: "call the token-refresh
    endpoint with the refresh token; on success, persist the new
    Credential and update the auth header; on failure, propagate". *)
Definition getFreshAccessToken (env : Env) (refreshTokenArg : value)
  : Async unit :=
  auth <- read authorization ;;
  emit (RefreshCall refreshTokenArg auth) ;;
  match refreshOutcome env with
  | Fulfilled fresh =>
      modify (with_store (Some (Json (credential_json fresh)))) ;;
      modify (with_authorization
                (Some (Bearer (Some (JStr (accessToken fresh))))))
  | Rejected e => throw e
  end.

(** The effect [currencies.getCurrencies] is not part of this file either;
    the guard only awaits it. *)
Definition getCurrencies (env : Env) : Async unit :=
  auth <- read authorization ;;
  emit (CurrenciesCall auth) ;;
  match currenciesOutcome env with
  | Fulfilled _ => ret tt
  | Rejected e => throw e
  end.

Definition toastShow (cfg : Config) (message : string) : Async unit :=
  emit (ToastShow (translate cfg "home_container_error_title")
          (translate cfg "home_container_error_description"
             +:+ ", " +:+ message)).

(** [storageValue && storageValue.accessToken && backendURL], with the
    short circuit of [&&]. *)
Definition entryCheck (cfg : Config) (storageValue : json) : bool :=
  if truthy (Some storageValue) then
    if truthy (prop storageValue "accessToken") then
      truthy_string (backendURL cfg)
    else false
  else false.

(** The body of the async arrow function in [useEffect]. *)
Definition body (cfg : Config) (env : Env) : Async unit :=
  tokens <- getItemAsync ;;
  storageValue <- JSON_parse tokens ;;
  if entryCheck cfg storageValue then
    modify (with_authorization
              (Some (Bearer (prop storageValue "accessToken")))) ;;
    try_catch
      (fresh <- callIsTokenFresh env storageValue ;;
       (if negb fresh
        then getFreshAccessToken env (prop storageValue "refreshToken")
        else ret tt) ;;
       faceIdCheck cfg env ;;
       getCurrencies env)
      (fun message => toastShow cfg message)
  else goToOauth.

(** [useEffect(() => { (async () => { ... })(); }, [])] *)
Definition establishSession (cfg : Config) (env : Env) (s : Screen) : Screen :=
  fire_and_forget (body cfg env) s.

End SessionGuard.

(** *** What a run of the guard amounts to *)

(** The effects added to the trace between two states. *)
Definition emitted (before after : Screen) : list effect :=
  drop (length (trace before)) (trace after).

Definition is_redirect (e : effect) : bool :=
  match e with NavReset "oauth" => true | _ => false end.

Definition is_toast (e : effect) : bool :=
  match e with ToastShow _ _ => true | _ => false end.

Definition is_refresh (e : effect) : bool :=
  match e with RefreshCall _ _ => true | _ => false end.

Definition is_prompt (e : effect) : bool :=
  match e with BiometricPrompt => true | _ => false end.

Definition is_currencies (e : effect) : bool :=
  match e with CurrenciesCall _ => true | _ => false end.

Definition is_family (e : effect) : bool :=
  match e with FamilyCall _ _ => true | _ => false end.

(** A request to the budgeting API that carries the auth header. *)
Definition is_data_call (e : effect) : bool :=
  is_currencies e || is_family e.

(** The spec's [Result<Authenticated, Redirect>], read off a run: a
    navigation reset is a [Redirect]; otherwise the run is [Authenticated]
    when it got past the biometric gate with the header set; anything else
    [Incomplete]. *)
Inductive verdict : Type := Authenticated | Redirect | Incomplete.

Definition verdict_of (before after : Screen) : verdict :=
  let es := emitted before after in
  if existsb is_redirect es then Redirect
  else if existsb is_currencies es && bool_decide (is_Some (authorization after))
       then Authenticated
       else Incomplete.

(** ** RefreshCoordinator: the focus effect *)

Record RangeDetails : Type := {
  start : option string;
  end_ : option string
}.

Record Currency : Type := {
  currency_id : option string
}.

Module RefreshCoordinator.

(** [`${rangeDetails?.start}-${rangeDetails?.end}-${currency?.id}`] *)
Definition fingerprint (rangeDetails : option RangeDetails)
    (currency : option Currency) : string :=
  hole (rangeDetails ≫= start) +:+ "-" +:+
  hole (rangeDetails ≫= end_) +:+ "-" +:+
  hole (currency ≫= currency_id).

Definition families : list FetchFamily :=
  [NetWorth; Accounts; InsightCategories; InsightBudgets].

(** The four [dispatch] calls inside the array literal, left to right. *)
Definition dispatchAll : Async unit :=
  auth <- read authorization ;;
  emit (FamilyCall NetWorth auth) ;;
  emit (FamilyCall Accounts auth) ;;
  emit (FamilyCall InsightCategories auth) ;;
  emit (FamilyCall InsightBudgets auth).

(** [fetchData], up to the [await]: the run [run] of the callback reads its
    own [isActive] and the global header, and starts the batch.  The
    fingerprint is only recorded with the pending batch. *)
Definition fetchData (run : nat) (key : string) : Async unit :=
  active <- read (fun s => default false (isActive s !! run)) ;;
  auth <- read authorization ;;
  if active && bool_decide (is_Some auth) then
    dispatchAll ;;
    modify (fun s => with_pending (<[run := key]> (pending s)) s)
  else ret tt.

(** [Promise.all] of the four promises: rejected as soon as one of them
    is (the array order stands for the unknown order in time; the handler
    below does not look at the error). *)
Definition promiseAll (outs : FetchFamily -> settled string) : Async unit :=
  match outs NetWorth, outs Accounts, outs InsightCategories,
        outs InsightBudgets with
  | Rejected e, _, _, _ => throw e
  | _, Rejected e, _, _ => throw e
  | _, _, Rejected e, _ => throw e
  | _, _, _, Rejected e => throw e
  | _, _, _, _ => ret tt
  end.

(** [fetchData] after the [await]: the end of the [try] block, or the
    empty [catch]. *)
Definition fetchDataResume (outs : FetchFamily -> settled string)
  : Async unit :=
  try_catch (promiseAll outs) (fun _ => ret tt).

(** Modelled from the spec: the four data-fetch effects are not part of this
    file.  Section 6: each is an "async operation returning a result set";
    section 3: each family has "its own independent ... result set".  A
    family that resolves keeps its result, one that fails keeps what it
    had. *)
Definition commitFamilies (outs : FetchFamily -> settled string) (s : Screen)
  : Screen :=
  with_familyResults
    (fun f => match outs f with
              | Fulfilled r => Some r
              | Rejected _ => familyResults s f
              end) s.

(** The callback given to [useFocusEffect]; a run is numbered by the
    position of its [isActive] cell. *)
Definition focusCallback (rangeDetails : option RangeDetails)
    (currency : option Currency) (s : Screen) : Screen :=
  let run := length (isActive s) in
  let s1 := with_isActive (isActive s ++ [true]) s in
  let key := fingerprint rangeDetails currency in
  if bool_decide (prevFiltersRef s1 ≠ Some key) then
    with_prevFilters (Some key) (fire_and_forget (fetchData run key) s1)
  else s1.

(** The function returned by the callback: [isActive = false]. *)
Definition cleanup (run : nat) (s : Screen) : Screen :=
  with_isActive (<[run := false]> (isActive s)) s.

(** The pending batch started by run [batch] settles. *)
Definition settle (batch : nat) (outs : FetchFamily -> settled string)
    (s : Screen) : Screen :=
  match pending s !! batch with
  | None => s
  | Some _ =>
      fire_and_forget (fetchDataResume outs)
        (commitFamilies outs (with_pending (delete batch (pending s)) s))
  end.

End RefreshCoordinator.

(** ** The screen as an event-driven machine *)

(** [Mount] runs the mount effect with the answers of its collaborators,
    [Focus] runs the focus callback, [Blur] the clean-up function that a
    run of the callback returned, and [Settle] lets a pending batch end.
    The mount effect is taken in one piece: its awaited steps are strictly
    sequential, and the focus effect writes neither the header nor the
    store. *)
Inductive event : Type :=
| Mount (cfg : Config) (env : Env)
| Focus (rangeDetails : option RangeDetails) (currency : option Currency)
| Blur (run : nat)
| Settle (batch : nat) (outs : FetchFamily -> settled string).

Definition step (s : Screen) (e : event) : Screen :=
  match e with
  | Mount cfg env => SessionGuard.establishSession cfg env s
  | Focus rangeDetails currency =>
      RefreshCoordinator.focusCallback rangeDetails currency s
  | Blur run => RefreshCoordinator.cleanup run s
  | Settle batch outs => RefreshCoordinator.settle batch outs s
  end.

Definition run (s : Screen) (events : list event) : Screen :=
  fold_left step events s.

Definition is_focus (e : event) : bool :=
  match e with Focus _ _ => true | _ => false end.

(** The screen when the app starts: nothing stored yet is a parameter. *)
Definition initial (store : option stored) (auth : option header) : Screen :=
  {| secureStore := store; authorization := auth; prevFiltersRef := None;
     isActive := []; pending := ∅; familyResults := fun _ => None;
     trace := []; unhandled := [] |}.

(** ** Reading traces and histories *)



(** The header that a request carried. *)
Definition carried (e : effect) : option header :=
  match e with
  | RefreshCall _ auth | CurrenciesCall auth | FamilyCall _ auth => auth
  | _ => None
  end.

(** The four requests of one batch, as the array literal lists them. *)
Definition batchCalls (auth : option header) : list effect :=
  map (fun f => FamilyCall f auth) RefreshCoordinator.families.

(** The fingerprint of the latest trigger in a history, or [prev] when the
    history has none. *)
Definition lastTrigger (prev : option string) (events : list event)
  : option string :=
  fold_left
    (fun acc e =>
       match e with
       | Focus rangeDetails currency =>
           Some (RefreshCoordinator.fingerprint rangeDetails currency)
       | _ => acc
       end)
    events prev.

Module Spec.

Definition batchSucceeded (outs : FetchFamily -> settled string) : bool :=
  forallb (fun f => match outs f with Fulfilled _ => true | Rejected _ => false end)
    RefreshCoordinator.families.

(** Following the words of the spec (section 3): "the last fingerprint it
    successfully fetched for", that is, the fingerprint of the latest batch
    all of whose four fetches resolved. *)
Fixpoint lastFetchedFingerprint (s : Screen) (last : option string)
    (events : list event) : option string :=
  match events with
  | [] => last
  | e :: rest =>
      let last' :=
        match e with
        | Settle batch outs =>
            match pending s !! batch with
            | Some key => if batchSucceeded outs then Some key else last
            | None => last
            end
        | _ => last
        end in
      lastFetchedFingerprint (step s e) last' rest
  end.

(** Section 3, the invariant of FilterFingerprint, at one trigger that
    follows the history [events]: a batch is issued exactly when the
    fingerprint differs from the last one successfully fetched for. *)
Definition refetchIffChanged (s0 : Screen) (events : list event)
    (rangeDetails : option RangeDetails) (currency : option Currency) : Prop :=
  let s := run s0 events in
  emitted s (step s (Focus rangeDetails currency)) <> [] <->
  lastFetchedFingerprint s0 None events
    <> Some (RefreshCoordinator.fingerprint rangeDetails currency).

End Spec.

Definition quiet (events : list event) : bool :=
  forallb (fun e => negb (is_focus e)) events.

(** A request to the API is authorized when it carries a header. *)
Definition authorized (x : effect) : Prop :=
  is_data_call x = true -> is_Some (carried x).

(** ** Sample inputs *)

Module Sample.

(** Modelled from the spec: [TokenResponse.isTokenFresh] belongs to the
    authentication library.  Section 6: "freshness predicate is a pure
    function of [expiresAt] and current time". *)
Definition freshAt (now : Z) (storageValue : json) : bool :=
  match prop storageValue "expiresAt" with
  | Some (JNum t) => (now <? t)%Z
  | _ => true
  end.

(** [{accessToken: "A", refreshToken: "R", expiresAt}] *)
Definition tokens (expiry : Z) : json :=
  credential_json
    {| accessToken := "A"; refreshToken := "R"; expiresAt := expiry |}.

Definition now : Z := 1700000000.

Definition config (url : option string) (lock : bool) : Config :=
  {| backendURL := url; faceId := lock; translate := fun key => key |}.

Definition answers (refresh : settled Credential) (bio : bool)
    (currencies : settled unit) : Env :=
  {| isTokenFresh := freshAt now; refreshOutcome := refresh;
     bioSuccess := bio; currenciesOutcome := currencies |}.

Definition renewed : Credential :=
  {| accessToken := "B"; refreshToken := "R2"; expiresAt := now + 3600 |}.

Definition server : option string := Some "https://firefly.example".

(** A store holding a token pair, nothing else having happened yet. *)
Definition loggedIn (expiry : Z) : Screen :=
  initial (Some (Json (tokens expiry))) None.

(** A store whose item is not JSON, such as the text [{]. *)
Definition corrupted : Screen :=
  initial (Some (Malformed "Unexpected end of JSON input")) None.

Definition january : option RangeDetails :=
  Some {| start := Some "2024-01-01"; end_ := Some "2024-01-31" |}.

Definition usd : option Currency := Some {| currency_id := Some "USD" |}.

Definition allFine (f : FetchFamily) : settled string := Fulfilled "rows".

Definition accountsDown (f : FetchFamily) : settled string :=
  match f with
  | Accounts => Rejected "Network Error"
  | _ => Fulfilled "rows"
  end.

(** The screen once a session exists: header installed, nothing fetched. *)
Definition authenticatedIdle : Screen :=
  initial (Some (Json (tokens (now + 3600))))
    (Some (Bearer (Some (JStr "A")))).

End Sample.

(** ** More ways to read a run *)

Definition is_store_get (e : effect) : bool :=
  match e with StoreGet => true | _ => false end.


(** The number of triggers in a history whose fingerprint differs from the
    one recorded before them, [prev] being the content of [prevFiltersRef]
    at the start. *)
Fixpoint changes (prev : option string) (events : list event) : nat :=
  match events with
  | [] => 0
  | Focus rangeDetails currency :: rest =>
      let key := RefreshCoordinator.fingerprint rangeDetails currency in
      (if bool_decide (prev <> Some key) then 1 else 0) + changes (Some key) rest
  | _ :: rest => changes prev rest
  end.

(** Every pending batch belongs to a run of the focus callback that has
    taken place. *)
Definition pendingBounded (s : Screen) : Prop :=
  forall batch, is_Some (pending s !! batch) -> batch < length (isActive s).

(** ** The panels of the screen

    Of the three list panels and the tab switch, the part that depends on
    the data: which rows there are and what each row shows.  The amounts
    are only handed to [localNumberFormat], which belongs to [lib/common];
    both are parameters. *)

Module Panels.

(** The right-hand cell of a row: the formatted amount, or the
    [Skeleton] placeholder with its width and height. *)
Inductive cell : Type :=
| Formatted (text : string)
| Skeleton (w h : nat).

Module AssetsAccounts.

Record Attributes (amount : Type) : Type := {
  name : string;
  active : bool;
  include_net_worth : bool;
  currency_code : string;
  current_balance : amount
}.
Arguments name {amount}.
Arguments active {amount}.
Arguments include_net_worth {amount}.
Arguments currency_code {amount}.
Arguments current_balance {amount}.

Record Account (amount : Type) : Type := {
  attributes : Attributes amount
}.
Arguments attributes {amount}.

(** One [HStack]: its React key, the account name, the small note after
    it, the width of the bottom border and the balance cell. *)
Record Row : Type := {
  key : string;
  title : string;
  note : string;
  borderBottomWidth : nat;
  balance : cell
}.

(** [accounts && accounts?.filter((a) => a.attributes.active).map(...)];
    [None] is an [accounts] that is [undefined]. *)
Definition rows {amount : Type} (localNumberFormat : string -> amount -> string)
    (loading : bool) (accounts : option (list (Account amount))) : list Row :=
  match accounts with
  | None => []
  | Some accounts =>
      let shown := List.filter (fun a => active (attributes a)) accounts in
      imap
        (fun index account =>
           {| key := name (attributes account);
              title := name (attributes account);
              note := if include_net_worth (attributes account)
                      then "" else "(*)";
              borderBottomWidth :=
                if bool_decide (index + 1 = length shown) then 0 else 1;
              balance :=
                if negb loading
                then Formatted
                       (localNumberFormat (currency_code (attributes account))
                          (current_balance (attributes account)))
                else Skeleton 70 5 |})
        shown
  end.

End AssetsAccounts.

Module InsightCategories.

Record Category (amount : Type) : Type := {
  name : string;
  currency_code : string;
  difference_float : amount
}.
Arguments name {amount}.
Arguments currency_code {amount}.
Arguments difference_float {amount}.

Record Row : Type := {
  key : string;
  title : string;
  borderBottomWidth : nat;
  difference : cell
}.

(** [insightCategories.map((category, index) => ...)] *)
Definition rows {amount : Type} (localNumberFormat : string -> amount -> string)
    (loading : bool) (insightCategories : list (Category amount)) : list Row :=
  imap
    (fun index category =>
       {| key := name category;
          title := name category;
          borderBottomWidth :=
            if bool_decide (index + 1 = length insightCategories)
            then 0 else 1;
          difference :=
            if negb loading
            then Formatted
                   (localNumberFormat (currency_code category)
                      (difference_float category))
            else Skeleton 70 5 |})
    insightCategories.

End InsightCategories.

Module Tabs.

Inductive Panel : Type :=
| AssetsAccountsPanel
| InsightCategoriesPanel
| InsightBudgetsPanel.

(** The [values] given to [TabControl]. *)
Definition values : list string :=
  ["home_accounts"; "home_categories"; "home_budgets"].

(** [useState('home_accounts')] *)
Definition initialTab : string := "home_accounts".

(** The three [{tab === '...' && <Panel />}] lines: a test that fails
    renders nothing. *)
Definition panels (tab : string) : list Panel :=
  (if String.eqb tab "home_accounts" then [AssetsAccountsPanel] else []) ++
  (if String.eqb tab "home_categories" then [InsightCategoriesPanel] else []) ++
  (if String.eqb tab "home_budgets" then [InsightBudgetsPanel] else []).

End Tabs.

End Panels.

(** ** The mount effect when every awaited call may fail

    [SessionGuard] above lets the refresh call and the currencies request
    be rejected.  The two other promises that the effect awaits can be
    rejected as well: the read of the secure store (line 303, outside the
    [try]) and the biometric prompt (line 294, inside the [try] through
    [faceIdCheck]).  [FallibleGuard] is the same effect with these two
    failures added; without them it is [SessionGuard] (see
    [fallible_guard_without_faults]). *)

(** For each of the two promises, [None] when it resolves and the message
    of the rejection otherwise. *)
Record Faults : Type := {
  storeFault : option string;
  promptFault : option string
}.

Module FallibleGuard.

Definition getItemAsync (faults : Faults) : Async (option stored) :=
  emit StoreGet ;;
  match storeFault faults with
  | Some e => throw e
  | None => read secureStore
  end.

Definition authenticateAsync (faults : Faults) (env : Env) : Async bool :=
  emit BiometricPrompt ;;
  match promptFault faults with
  | Some e => throw e
  | None => ret (bioSuccess env)
  end.

Definition faceIdCheck (cfg : Config) (faults : Faults) (env : Env)
  : Async unit :=
  if faceId cfg then
    success <- authenticateAsync faults env ;;
    if negb success then SessionGuard.goToOauth else ret tt
  else ret tt.

(** The body of the async arrow function in [useEffect]. *)
Definition body (cfg : Config) (faults : Faults) (env : Env) : Async unit :=
  tokens <- getItemAsync faults ;;
  storageValue <- SessionGuard.JSON_parse tokens ;;
  if SessionGuard.entryCheck cfg storageValue then
    modify (with_authorization
              (Some (Bearer (prop storageValue "accessToken")))) ;;
    try_catch
      (fresh <- SessionGuard.callIsTokenFresh env storageValue ;;
       (if negb fresh
        then SessionGuard.getFreshAccessToken env
               (prop storageValue "refreshToken")
        else ret tt) ;;
       faceIdCheck cfg faults env ;;
       SessionGuard.getCurrencies env)
      (fun message => SessionGuard.toastShow cfg message)
  else SessionGuard.goToOauth.

Definition establishSession (cfg : Config) (faults : Faults) (env : Env)
    (s : Screen) : Screen :=
  fire_and_forget (body cfg faults env) s.

End FallibleGuard.

(** * Properties *)

(** ** Reasoning about traces *)

Lemma emitted_app (s s' : Screen) (d : list effect) :
  trace s' = trace s ++ d -> emitted s s' = d.
Proof. intros H. unfold emitted. rewrite H. apply drop_app_length. Qed.

Lemma emitted_refl (s s' : Screen) :
  trace s' = trace s -> emitted s s' = [].
Proof. intros H. apply emitted_app. now rewrite app_nil_r. Qed.

Lemma entryCheck_null (cfg : Config) : SessionGuard.entryCheck cfg JNull = false.
Proof. reflexivity. Qed.

Ltac guard_unfold :=
  unfold SessionGuard.establishSession, fire_and_forget, SessionGuard.body,
    SessionGuard.getItemAsync, SessionGuard.JSON_parse, SessionGuard.goToOauth,
    SessionGuard.callIsTokenFresh, SessionGuard.getFreshAccessToken,
    SessionGuard.faceIdCheck, SessionGuard.authenticateAsync,
    SessionGuard.getCurrencies, SessionGuard.toastShow,
    try_catch, bind, ret, throw, emit, read, modify.

(** Use what is known about the collaborators, then split on the rest. *)
Ltac guard_known :=
  repeat match goal with
  | H : secureStore ?s = _ |- context [secureStore ?s] => rewrite H
  | H : SessionGuard.entryCheck ?c ?v = _
    |- context [SessionGuard.entryCheck ?c ?v] => rewrite H
  | H : isTokenFresh ?e ?v = _ |- context [isTokenFresh ?e ?v] => rewrite H
  | H : refreshOutcome ?e = _ |- context [refreshOutcome ?e] => rewrite H
  | H : faceId ?c = _ |- context [faceId ?c] => rewrite H
  | H : bioSuccess ?e = _ |- context [bioSuccess ?e] => rewrite H
  | H : currenciesOutcome ?e = _ |- context [currenciesOutcome ?e] =>
      rewrite H
  end.

Ltac guard_split :=
  match goal with
  | |- context [match secureStore ?s with _ => _ end] =>
      destruct (secureStore s) as [[?|?]|] eqn:?
  | |- context [if SessionGuard.entryCheck ?c ?v then _ else _] =>
      destruct (SessionGuard.entryCheck c v) eqn:?
  | |- context [if negb (isTokenFresh ?e ?v) then _ else _] =>
      destruct (isTokenFresh e v) eqn:?
  | |- context [match refreshOutcome ?e with _ => _ end] =>
      destruct (refreshOutcome e) eqn:?
  | |- context [if faceId ?c then _ else _] => destruct (faceId c) eqn:?
  | |- context [if negb (bioSuccess ?e) then _ else _] =>
      destruct (bioSuccess e) eqn:?
  | |- context [match currenciesOutcome ?e with _ => _ end] =>
      destruct (currenciesOutcome e) eqn:?
  end.

Ltac trace_simpl :=
  unfold verdict_of, emitted; cbn [trace authorization unhandled secureStore
    with_trace with_authorization with_store with_unhandled];
  rewrite <- ?app_assoc, ?drop_app_length; cbn.

Ltac guard_run :=
  guard_unfold; cbn; guard_known; rewrite ?entryCheck_null; cbn;
  repeat (guard_split; cbn); trace_simpl.

(** ** SessionGuard: the paths through the mount effect *)

Section GuardPaths.

Variables (cfg : Config) (env : Env) (s : Screen).

Let s' : Screen := SessionGuard.establishSession cfg env s.

Lemma entryCheck_true (v : json) :
  SessionGuard.entryCheck cfg v = true <->
  truthy (Some v) = true /\ truthy (prop v "accessToken") = true /\
  truthy_string (backendURL cfg) = true.
Proof.
  unfold SessionGuard.entryCheck.
  destruct (truthy (Some v)), (truthy (prop v "accessToken")),
    (truthy_string (backendURL cfg)); intuition congruence.
Qed.

(** No stored item: the [else] branch. *)
Lemma absent_credential_redirects :
  secureStore s = None ->
  emitted s s' = [StoreGet; NavReset "oauth"] /\
  authorization s' = authorization s /\
  unhandled s' = unhandled s /\
  verdict_of s s' = Redirect.
Proof. intros H. subst s'. guard_run. auto. Qed.

(** A parsed value that fails the entry condition: the [else] branch. *)
Lemma refused_credential_redirects (v : json) :
  secureStore s = Some (Json v) ->
  SessionGuard.entryCheck cfg v = false ->
  emitted s s' = [StoreGet; NavReset "oauth"] /\
  authorization s' = authorization s /\
  unhandled s' = unhandled s /\
  verdict_of s s' = Redirect.
Proof. intros H1 H2. subst s'. guard_run. auto. Qed.

(** A text that is not JSON: [JSON.parse] throws outside the [try], and the
    promise of the async arrow function is rejected. *)
Lemma malformed_credential_rejects (message : string) :
  secureStore s = Some (Malformed message) ->
  emitted s s' = [StoreGet] /\
  authorization s' = authorization s /\
  unhandled s' = unhandled s ++ [message] /\
  verdict_of s s' = Incomplete.
Proof. intros H. subst s'. guard_run. auto. Qed.

(** With [backendURL] unset, whatever [JSON.parse] accepts is redirected. *)
Lemma unset_backend_redirects :
  truthy_string (backendURL cfg) = false ->
  (forall message, secureStore s <> Some (Malformed message)) ->
  emitted s s' = [StoreGet; NavReset "oauth"] /\
  authorization s' = authorization s.
Proof.
  intros Hurl Hparse.
  destruct (secureStore s) as [[message|v]|] eqn:Hstore.
  - now destruct (Hparse message).
  - assert (SessionGuard.entryCheck cfg v = false) as Hentry.
    { destruct (SessionGuard.entryCheck cfg v) eqn:E; [|reflexivity].
      apply entryCheck_true in E. destruct E as (_ & _ & E). congruence. }
    destruct (refused_credential_redirects v Hstore Hentry) as (? & ? & _).
    auto.
  - destruct (absent_credential_redirects Hstore) as (? & ? & _). auto.
Qed.

End GuardPaths.

(** ** SessionGuard: the claims *)

(** C3 (code defect).  The claim wants a stored credential that fails to
    parse to be redirected to login in silence.  On a stored text that is
    not JSON the guard reads the store and stops: [JSON.parse] throws before
    the entry condition, so there is no navigation reset (and no
    notification, header, refresh, prompt or data call either); the
    rejection is left unhandled. *)
Theorem C3_malformed_credential_is_not_redirected :
  let before := Sample.corrupted in
  let after :=
    SessionGuard.establishSession
      (Sample.config Sample.server false)
      (Sample.answers (Fulfilled Sample.renewed) true (Fulfilled tt)) before in
  emitted before after = [StoreGet] /\
  existsb is_redirect (emitted before after) = false /\
  verdict_of before after = Incomplete /\
  unhandled after = ["Unexpected end of JSON input"] /\
  authorization after = None.
Proof. cbn zeta. repeat split; reflexivity. Qed.

(** C9 (code defect, the one of C3).  The claim wants every stored
    credential to be redirected when [backendURL] is unset.  On a stored
    text that is not JSON and an unset [backendURL] the guard never reaches
    the test of [backendURL]: no navigation reset takes place. *)
Theorem C9_malformed_credential_unset_backend_is_not_redirected :
  let before := Sample.corrupted in
  let after :=
    SessionGuard.establishSession
      (Sample.config None true)
      (Sample.answers (Fulfilled Sample.renewed) true (Fulfilled tt)) before in
  emitted before after = [StoreGet] /\
  existsb is_redirect (emitted before after) = false /\
  unhandled after = ["Unexpected end of JSON input"].
Proof. cbn zeta. repeat split; reflexivity. Qed.

(** C5, the claim as stated fails: a stored credential whose [expiresAt]
    is in the past, with [backendURL] unset, is redirected without any
    refresh call and, the refresh endpoint being down, without a
    notification. *)
Lemma C5_counterexample :
  let before := Sample.loggedIn (Sample.now - 1000) in
  let env := Sample.answers (Rejected "Network Error") true (Fulfilled tt) in
  let after :=
    SessionGuard.establishSession (Sample.config None false) env before in
  isTokenFresh env (Sample.tokens (Sample.now - 1000)) = false /\
  filter is_refresh (emitted before after) = [] /\
  existsb is_toast (emitted before after) = false /\
  existsb is_redirect (emitted before after) = true /\
  authorization after = None.
Proof. cbn zeta. repeat split; reflexivity. Qed.

(** C5 (amended).  For every stored credential that passes the entry
    condition (a parsed value with a truthy [accessToken], [backendURL]
    set) and is not fresh, the guard calls the refresh effect exactly once,
    with the stored refresh token; if that call fails, the run consists of
    the store read, the freshness check, the refresh call and one error
    notification whose description ends with the failure message, there is
    no navigation reset, and the header still holds the stored access
    token. *)
Theorem C5_stale_credential_refreshes_once
    (cfg : Config) (env : Env) (s : Screen) (v : json) :
  secureStore s = Some (Json v) ->
  truthy (Some v) = true ->
  truthy (prop v "accessToken") = true ->
  truthy_string (backendURL cfg) = true ->
  isTokenFresh env v = false ->
  let s' := SessionGuard.establishSession cfg env s in
  let old := Some (Bearer (prop v "accessToken")) in
  filter is_refresh (emitted s s') = [RefreshCall (prop v "refreshToken") old]
  /\ forall message, refreshOutcome env = Rejected message ->
       emitted s s' =
         [StoreGet; FreshnessCheck v; RefreshCall (prop v "refreshToken") old;
          ToastShow (translate cfg "home_container_error_title")
            (translate cfg "home_container_error_description"
               +:+ ", " +:+ message)]
       /\ existsb is_redirect (emitted s s') = false
       /\ authorization s' = old.
Proof.
  intros Hstore Hv Htok Hurl Hstale.
  assert (SessionGuard.entryCheck cfg v = true) as Hentry
    by (apply entryCheck_true; auto).
  cbn zeta. split.
  - guard_run; reflexivity.
  - intros message Hrefresh. guard_run. auto.
Qed.

Lemma C5_witness :
  let before := Sample.loggedIn (Sample.now - 1000) in
  let cfg := Sample.config Sample.server false in
  let env := Sample.answers (Rejected "Network Error") true (Fulfilled tt) in
  let after := SessionGuard.establishSession cfg env before in
  emitted before after =
    [StoreGet; FreshnessCheck (Sample.tokens (Sample.now - 1000));
     RefreshCall (Some (JStr "R")) (Some (Bearer (Some (JStr "A"))));
     ToastShow "home_container_error_title"
       "home_container_error_description, Network Error"]
  /\ existsb is_redirect (emitted before after) = false
  /\ authorization after = Some (Bearer (Some (JStr "A"))).
Proof.
  cbn zeta.
  refine (proj2 (C5_stale_credential_refreshes_once
            (Sample.config Sample.server false)
            (Sample.answers (Rejected "Network Error") true (Fulfilled tt))
            (Sample.loggedIn (Sample.now - 1000))
            (Sample.tokens (Sample.now - 1000)) _ _ _ _ _) "Network Error" _);
    reflexivity.
Defined.

(** C7, the claim as stated fails: a valid, fresh credential with the
    biometric lock off is redirected, not authenticated, when [backendURL]
    is unset. *)
Lemma C7_counterexample :
  let before := Sample.loggedIn (Sample.now + 3600) in
  let env := Sample.answers (Fulfilled Sample.renewed) true (Fulfilled tt) in
  let after :=
    SessionGuard.establishSession (Sample.config None false) env before in
  isTokenFresh env (Sample.tokens (Sample.now + 3600)) = true /\
  verdict_of before after = Redirect /\
  emitted before after = [StoreGet; NavReset "oauth"] /\
  authorization after = None.
Proof. cbn zeta. repeat split; reflexivity. Qed.

(** C7 (amended).  For every stored credential that is valid (a parsed
    value with a truthy [accessToken]) and fresh, with [backendURL] set and
    the biometric lock off, the guard ends as Authenticated with the
    stored access token in the header, and it issues no refresh call and no
    biometric prompt. *)
Theorem C7_fresh_credential_authenticates
    (cfg : Config) (env : Env) (s : Screen) (v : json) :
  secureStore s = Some (Json v) ->
  truthy (Some v) = true ->
  truthy (prop v "accessToken") = true ->
  truthy_string (backendURL cfg) = true ->
  isTokenFresh env v = true ->
  faceId cfg = false ->
  let s' := SessionGuard.establishSession cfg env s in
  verdict_of s s' = Authenticated /\
  authorization s' = Some (Bearer (prop v "accessToken")) /\
  filter is_refresh (emitted s s') = [] /\
  filter is_prompt (emitted s s') = [] /\
  existsb is_redirect (emitted s s') = false.
Proof.
  intros Hstore Hv Htok Hurl Hfresh Hlock.
  assert (SessionGuard.entryCheck cfg v = true) as Hentry
    by (apply entryCheck_true; auto).
  cbn zeta. guard_run; auto.
Qed.

Lemma C7_witness :
  let before := Sample.loggedIn (Sample.now + 3600) in
  let cfg := Sample.config Sample.server false in
  let env := Sample.answers (Fulfilled Sample.renewed) true (Fulfilled tt) in
  let after := SessionGuard.establishSession cfg env before in
  verdict_of before after = Authenticated /\
  authorization after = Some (Bearer (Some (JStr "A"))) /\
  filter is_refresh (emitted before after) = [] /\
  filter is_prompt (emitted before after) = [] /\
  existsb is_redirect (emitted before after) = false.
Proof.
  cbn zeta.
  refine (C7_fresh_credential_authenticates
            (Sample.config Sample.server false)
            (Sample.answers (Fulfilled Sample.renewed) true (Fulfilled tt))
            (Sample.loggedIn (Sample.now + 3600))
            (Sample.tokens (Sample.now + 3600)) _ _ _ _ _ _);
    reflexivity.
Defined.



(** C10.  When the biometric prompt is denied, the navigation reset does not
    end the run: right after the reset the guard issues the currencies
    request, which carries the auth header, and at the end of the run the
    header is still that same value. *)
Theorem C10_denied_biometric_still_fetches_currencies
    (cfg : Config) (env : Env) (s : Screen) :
  let s' := SessionGuard.establishSession cfg env s in
  existsb is_prompt (emitted s s') = true ->
  bioSuccess env = false ->
  exists before after auth,
    emitted s s' =
      before ++ [BiometricPrompt; NavReset "oauth"; CurrenciesCall (Some auth)]
             ++ after /\
    existsb is_redirect after = false /\
    authorization s' = Some auth.
Proof.
  cbn zeta. intros Hprompt Hdenied. revert Hprompt.
  guard_run; intros; try discriminate.
  - eexists [_; _], [], _. cbn. eauto.
  - eexists [_; _], [_], _. cbn. eauto.
  - eexists [_; _; _], [], _. cbn. eauto.
  - eexists [_; _; _], [_], _. cbn. eauto.
Qed.

Lemma C10_witness :
  let before := Sample.loggedIn (Sample.now + 3600) in
  let cfg := Sample.config Sample.server true in
  let env := Sample.answers (Fulfilled Sample.renewed) false (Fulfilled tt) in
  let after := SessionGuard.establishSession cfg env before in
  exists pre post auth,
    emitted before after =
      pre ++ [BiometricPrompt; NavReset "oauth"; CurrenciesCall (Some auth)]
          ++ post /\
    existsb is_redirect post = false /\
    authorization after = Some auth.
Proof.
  cbn zeta.
  refine (C10_denied_biometric_still_fetches_currencies
            (Sample.config Sample.server true)
            (Sample.answers (Fulfilled Sample.renewed) false (Fulfilled tt))
            (Sample.loggedIn (Sample.now + 3600)) _ _);
    reflexivity.
Defined.

(** ** RefreshCoordinator: what each event does *)

Section CoordinatorSteps.

Import RefreshCoordinator.

Variable s : Screen.

Lemma own_isActive_is_true :
  default false ((isActive s ++ [true]) !! length (isActive s)) = true.
Proof. now rewrite list_lookup_middle. Qed.

(** The whole effect of one run of the focus callback. *)
Lemma focusCallback_spec (rangeDetails : option RangeDetails)
    (currency : option Currency) :
  let key := fingerprint rangeDetails currency in
  let s' := focusCallback rangeDetails currency s in
  let starts :=
    bool_decide (prevFiltersRef s <> Some key) &&
    bool_decide (is_Some (authorization s)) in
  prevFiltersRef s' = Some key /\
  trace s' = trace s ++ (if starts then batchCalls (authorization s) else []) /\
  pending s' =
    (if starts then <[length (isActive s) := key]> (pending s) else pending s) /\
  isActive s' = isActive s ++ [true] /\
  authorization s' = authorization s /\
  secureStore s' = secureStore s /\
  familyResults s' = familyResults s /\
  unhandled s' = unhandled s.
Proof.
  cbn zeta. unfold focusCallback. cbn [prevFiltersRef with_isActive].
  case_bool_decide as Hkey; cbn [andb].
  - unfold fire_and_forget, fetchData, dispatchAll, bind, read, emit, modify, ret.
    cbn [isActive with_isActive authorization]. rewrite own_isActive_is_true.
    cbn [andb]. case_bool_decide as Hauth; cbn.
    + rewrite <- !app_assoc. cbn. auto 10.
    + rewrite app_nil_r. auto 10.
  - cbn. rewrite app_nil_r. auto 10.
Qed.

Lemma cleanup_spec (n : nat) :
  let s' := cleanup n s in
  prevFiltersRef s' = prevFiltersRef s /\ trace s' = trace s /\
  authorization s' = authorization s /\ unhandled s' = unhandled s /\
  pending s' = pending s /\ familyResults s' = familyResults s.
Proof. cbn. auto 10. Qed.

(** [fetchData] never lets a rejection of the batch escape. *)
Lemma fetchDataResume_swallows (outs : FetchFamily -> settled string)
    (t : Screen) :
  fetchDataResume outs t = (Normal tt, t).
Proof.
  unfold fetchDataResume, try_catch, promiseAll, throw, ret.
  destruct (outs NetWorth), (outs Accounts), (outs InsightCategories),
    (outs InsightBudgets); reflexivity.
Qed.

Lemma settle_spec (batch : nat) (outs : FetchFamily -> settled string) :
  let s' := settle batch outs s in
  prevFiltersRef s' = prevFiltersRef s /\ trace s' = trace s /\
  authorization s' = authorization s /\ unhandled s' = unhandled s /\
  isActive s' = isActive s.
Proof.
  cbn zeta. unfold settle. destruct (pending s !! batch); [|auto 10].
  unfold fire_and_forget. rewrite fetchDataResume_swallows. cbn. auto 10.
Qed.

End CoordinatorSteps.

(** ** Histories of events *)

Lemma establishSession_frame (cfg : Config) (env : Env) (s : Screen) :
  let s' := SessionGuard.establishSession cfg env s in
  prevFiltersRef s' = prevFiltersRef s /\ isActive s' = isActive s /\
  pending s' = pending s /\ familyResults s' = familyResults s.
Proof. cbn zeta. guard_run; auto. Qed.

(** Once installed, the header survives the mount effect: no path through
    it, the redirecting ones included, clears the slot. *)
Lemma establishSession_keeps_header (cfg : Config) (env : Env) (s : Screen) :
  is_Some (authorization s) ->
  is_Some (authorization (SessionGuard.establishSession cfg env s)).
Proof. guard_run; eauto. Qed.

Lemma establishSession_trace (cfg : Config) (env : Env) (s : Screen) :
  exists d,
    trace (SessionGuard.establishSession cfg env s) = trace s ++ d /\
    Forall authorized d.
Proof.
  guard_unfold; cbn; repeat (guard_split; cbn); rewrite <- ?app_assoc;
    (eexists; split; [reflexivity|]);
    repeat constructor; unfold authorized; cbn; intros; eauto; discriminate.
Qed.

Lemma step_prevFilters (s : Screen) (e : event) :
  prevFiltersRef (step s e) = lastTrigger (prevFiltersRef s) [e].
Proof.
  destruct e as [cfg env|rd cur|n|b outs]; cbn.
  - apply establishSession_frame.
  - apply focusCallback_spec.
  - reflexivity.
  - apply settle_spec.
Qed.

Lemma step_keeps_header (s : Screen) (e : event) :
  is_Some (authorization s) -> is_Some (authorization (step s e)).
Proof.
  intros H. destruct e as [cfg env|rd cur|n|b outs]; cbn.
  - now apply establishSession_keeps_header.
  - now rewrite (proj1 (proj2 (proj2 (proj2 (proj2
      (focusCallback_spec s rd cur)))))).
  - exact H.
  - now rewrite (proj1 (proj2 (proj2 (settle_spec s b outs)))).
Qed.

Lemma step_trace (s : Screen) (e : event) :
  exists d, trace (step s e) = trace s ++ d /\ Forall authorized d.
Proof.
  destruct e as [cfg env|rd cur|n|b outs]; cbn.
  - apply establishSession_trace.
  - destruct (focusCallback_spec s rd cur) as (_ & Htrace & _).
    eexists; split; [exact Htrace|].
    case_bool_decide as Hkey; cbn [andb]; [|constructor].
    case_bool_decide as Hauth; cbn [andb]; [|constructor].
    unfold batchCalls. cbn. repeat constructor; intros _; exact Hauth.
  - exists []. now rewrite app_nil_r.
  - exists []. rewrite app_nil_r.
    split; [apply settle_spec|constructor].
Qed.

Lemma run_snoc (s : Screen) (events : list event) (e : event) :
  run s (events ++ [e]) = step (run s events) e.
Proof. unfold run. now rewrite fold_left_app. Qed.

Lemma lastTrigger_snoc (prev : option string) (events : list event)
    (e : event) :
  lastTrigger prev (events ++ [e]) = lastTrigger (lastTrigger prev events) [e].
Proof. unfold lastTrigger. now rewrite fold_left_app. Qed.

(** [prevFiltersRef] always holds the fingerprint of the latest trigger. *)
Lemma prevFilters_is_lastTrigger (s : Screen) (events : list event) :
  prevFiltersRef (run s events) = lastTrigger (prevFiltersRef s) events.
Proof.
  induction events as [|e events IH] using rev_ind; [reflexivity|].
  now rewrite run_snoc, lastTrigger_snoc, step_prevFilters, IH.
Qed.

Lemma lastTrigger_quiet (prev : option string) (events : list event) :
  quiet events = true -> lastTrigger prev events = prev.
Proof.
  revert prev. induction events as [|e events IH]; intros prev; [reflexivity|].
  cbn. intros H. apply andb_prop in H as [He Hrest].
  destruct e; try discriminate; now apply IH.
Qed.

Lemma run_keeps_header (s : Screen) (events : list event) :
  is_Some (authorization s) -> is_Some (authorization (run s events)).
Proof.
  induction events as [|e events IH] using rev_ind; [easy|].
  intros H. rewrite run_snoc. apply step_keeps_header. auto.
Qed.

Lemma run_trace (s : Screen) (events : list event) :
  exists d, trace (run s events) = trace s ++ d /\ Forall authorized d.
Proof.
  induction events as [|e events IH] using rev_ind.
  - exists []. now rewrite app_nil_r.
  - destruct IH as (d & Hd & Hauth).
    destruct (step_trace (run s events) e) as (d' & Hd' & Hauth').
    exists (d ++ d'). rewrite run_snoc, Hd', Hd, app_assoc.
    split; [reflexivity|]. now apply Forall_app.
Qed.

(** What one trigger emits. *)
Lemma focus_emits (s : Screen) (rangeDetails : option RangeDetails)
    (currency : option Currency) :
  let key := RefreshCoordinator.fingerprint rangeDetails currency in
  emitted s (step s (Focus rangeDetails currency)) =
    if bool_decide (prevFiltersRef s <> Some key) &&
       bool_decide (is_Some (authorization s))
    then batchCalls (authorization s) else [].
Proof.
  cbn zeta. apply emitted_app. apply focusCallback_spec.
Qed.

(** ** RefreshCoordinator and the header slot: the claims *)

(** C1, the claim as stated fails: with the header set, a trigger starts a
    batch in which the accounts fetch fails; no batch has completed
    successfully, so the same fingerprint still differs from the last one
    successfully fetched for, and yet the next trigger with it issues
    nothing. *)
Lemma C1_counterexample :
  let history := [Focus Sample.january Sample.usd; Settle 0 Sample.accountsDown] in
  let s := run Sample.authenticatedIdle history in
  Spec.lastFetchedFingerprint Sample.authenticatedIdle None history = None /\
  emitted s (step s (Focus Sample.january Sample.usd)) = [] /\
  ~ Spec.refetchIffChanged Sample.authenticatedIdle history
      Sample.january Sample.usd.
Proof.
  cbn zeta.
  assert (emitted (run Sample.authenticatedIdle
                     [Focus Sample.january Sample.usd;
                      Settle 0 Sample.accountsDown])
            (step (run Sample.authenticatedIdle
                     [Focus Sample.january Sample.usd;
                      Settle 0 Sample.accountsDown])
               (Focus Sample.january Sample.usd)) = []) as Hnone
    by (vm_compute; reflexivity).
  assert (Spec.lastFetchedFingerprint Sample.authenticatedIdle None
            [Focus Sample.january Sample.usd; Settle 0 Sample.accountsDown]
          = None) as Hlast by (vm_compute; reflexivity).
  split; [exact Hlast|]. split; [exact Hnone|].
  unfold Spec.refetchIffChanged. cbn zeta. rewrite Hnone, Hlast.
  intros [_ Hissue]. now apply Hissue.
Qed.

(** C1 (amended).  After any history of events, a trigger issues either
    nothing or one batch of the four fetches, and it issues the batch if and
    only if the auth header is set and the fingerprint string
    [start-end-id] differs from that of the latest earlier trigger, which
    is what [prevFiltersRef] holds (the trigger records its fingerprint at
    once, whether or not a batch was started or succeeded).  In particular,
    of two consecutive triggers with identical fingerprints the second
    issues nothing, whatever else (blur, settlement of batches, a mount)
    happened in between. *)
Theorem C1_refetch_iff_differs_from_last_trigger
    (s0 : Screen) (history : list event)
    (rangeDetails : option RangeDetails) (currency : option Currency) :
  let s := run s0 history in
  let key := RefreshCoordinator.fingerprint rangeDetails currency in
  let s' := step s (Focus rangeDetails currency) in
  (emitted s s' = batchCalls (authorization s) \/ emitted s s' = []) /\
  (emitted s s' <> [] <->
     is_Some (authorization s) /\
     lastTrigger (prevFiltersRef s0) history <> Some key) /\
  prevFiltersRef s' = Some key /\
  forall between rangeDetails' currency',
    quiet between = true ->
    RefreshCoordinator.fingerprint rangeDetails' currency' = key ->
    emitted (run s' between)
      (step (run s' between) (Focus rangeDetails' currency')) = [].
Proof.
  cbn zeta.
  pose proof (focus_emits (run s0 history) rangeDetails currency) as Hemit.
  cbn zeta in Hemit. rewrite prevFilters_is_lastTrigger in Hemit.
  assert (prevFiltersRef (step (run s0 history) (Focus rangeDetails currency))
          = Some (RefreshCoordinator.fingerprint rangeDetails currency))
    as Hprev by apply focusCallback_spec.
  split; [|split; [split|split]].
  - rewrite Hemit. destruct (_ && _); auto.
  - intros Hsome. rewrite Hemit in Hsome.
    repeat case_bool_decide; cbn in Hsome; try congruence. auto.
  - intros [Hauth Hkey]. rewrite Hemit.
    rewrite !bool_decide_eq_true_2 by assumption. discriminate.
  - exact Hprev.
  - intros between rangeDetails' currency' Hquiet Hsame.
    rewrite focus_emits, prevFilters_is_lastTrigger,
      (lastTrigger_quiet _ _ Hquiet), Hprev, Hsame.
    now rewrite bool_decide_eq_false_2 by auto.
Qed.

Lemma C1_witness :
  let s := Sample.authenticatedIdle in
  let s' := step s (Focus Sample.january Sample.usd) in
  emitted s s' = batchCalls (authorization s) /\
  emitted (run s' [Blur 0; Settle 0 Sample.allFine])
    (step (run s' [Blur 0; Settle 0 Sample.allFine])
       (Focus Sample.january Sample.usd)) = [].
Proof.
  cbn zeta. split; [vm_compute; reflexivity|].
  refine (proj2 (proj2 (proj2 (C1_refetch_iff_differs_from_last_trigger
            Sample.authenticatedIdle [] Sample.january Sample.usd)))
          [Blur 0; Settle 0 Sample.allFine] Sample.january Sample.usd _ _);
    reflexivity.
Defined.

(** C2, the claim as stated fails: right after the trigger, while the batch
    is still pending, [prevFiltersRef] already holds the new fingerprint;
    and when the screen loses focus before the batch resolves, so that
    [isActive] is false at completion, the new fingerprint stays recorded
    and the families' results are updated. *)
Lemma C2_counterexample :
  let key := RefreshCoordinator.fingerprint Sample.january Sample.usd in
  let started := step Sample.authenticatedIdle (Focus Sample.january Sample.usd) in
  let finished := run started [Blur 0; Settle 0 Sample.allFine] in
  prevFiltersRef Sample.authenticatedIdle = None /\
  pending started !! 0 = Some key /\
  prevFiltersRef started = Some key /\
  isActive finished !! 0 = Some false /\
  pending finished !! 0 = None /\
  prevFiltersRef finished = Some key /\
  familyResults finished NetWorth = Some "rows".
Proof. cbn zeta. repeat split; vm_compute; reflexivity. Qed.

(** C2 (amended).  For every trigger whose fingerprint string differs from
    [prevFiltersRef], with the auth header set, the coordinator issues
    exactly one batch: the four fetches, once each, registered as one
    pending [Promise.all].  [prevFiltersRef] is set to the new value in that
    same step, before the batch completes, and no later event other than a
    trigger (loss of focus, settlement of the batch, a mount) changes it. *)
Theorem C2_changed_fingerprint_issues_one_batch
    (s : Screen) (rangeDetails : option RangeDetails)
    (currency : option Currency) :
  let key := RefreshCoordinator.fingerprint rangeDetails currency in
  let s' := step s (Focus rangeDetails currency) in
  is_Some (authorization s) ->
  prevFiltersRef s <> Some key ->
  emitted s s' =
    [FamilyCall NetWorth (authorization s);
     FamilyCall Accounts (authorization s);
     FamilyCall InsightCategories (authorization s);
     FamilyCall InsightBudgets (authorization s)] /\
  pending s' = <[length (isActive s) := key]> (pending s) /\
  isActive s' !! length (isActive s) = Some true /\
  prevFiltersRef s' = Some key /\
  forall later, quiet later = true -> prevFiltersRef (run s' later) = Some key.
Proof.
  cbn zeta. intros Hauth Hkey.
  destruct (focusCallback_spec s rangeDetails currency)
    as (Hprev & Htrace & Hpending & Hactive & _).
  rewrite !bool_decide_eq_true_2 in Htrace, Hpending by assumption.
  cbn [andb] in Htrace, Hpending.
  split; [now apply emitted_app|].
  split; [exact Hpending|].
  split; [cbn [step]; rewrite Hactive; apply list_lookup_middle; reflexivity|].
  split; [exact Hprev|].
  intros later Hquiet.
  now rewrite prevFilters_is_lastTrigger, (lastTrigger_quiet _ _ Hquiet).
Qed.

Lemma C2_witness :
  let s := Sample.authenticatedIdle in
  let s' := step s (Focus Sample.january Sample.usd) in
  emitted s s' =
    [FamilyCall NetWorth (authorization s);
     FamilyCall Accounts (authorization s);
     FamilyCall InsightCategories (authorization s);
     FamilyCall InsightBudgets (authorization s)].
Proof.
  cbn zeta.
  refine (proj1 (C2_changed_fingerprint_issues_one_batch
            Sample.authenticatedIdle Sample.january Sample.usd _ _)).
  - vm_compute. eauto.
  - vm_compute. discriminate.
Defined.

(** C8.  When a pending batch settles with one family rejected, the
    coordinator swallows the failure: [fetchData] completes normally, the
    step emits nothing (no notification, no navigation reset, no request),
    no rejection is left unhandled, the header and [prevFiltersRef] are
    untouched, every family of the batch that resolved keeps its result and
    the failed one keeps what it had. *)
Theorem C8_failed_family_is_swallowed
    (s : Screen) (batch : nat) (outs : FetchFamily -> settled string)
    (failed : FetchFamily) (message key : string) :
  pending s !! batch = Some key ->
  outs failed = Rejected message ->
  let s' := step s (Settle batch outs) in
  RefreshCoordinator.fetchDataResume outs s' = (Normal tt, s') /\
  emitted s s' = [] /\
  unhandled s' = unhandled s /\
  authorization s' = authorization s /\
  prevFiltersRef s' = prevFiltersRef s /\
  familyResults s' failed = familyResults s failed /\
  forall family rows,
    family <> failed -> outs family = Fulfilled rows ->
    familyResults s' family = Some rows.
Proof.
  intros Hpending Hfailed. cbn zeta.
  destruct (settle_spec s batch outs) as (Hprev & Htrace & Hauth & Hun & _).
  split; [apply fetchDataResume_swallows|].
  split; [now apply emitted_refl|].
  split; [exact Hun|]. split; [exact Hauth|]. split; [exact Hprev|].
  cbn [step]. unfold RefreshCoordinator.settle. rewrite Hpending.
  unfold fire_and_forget. rewrite fetchDataResume_swallows.
  cbn. rewrite Hfailed. split; [reflexivity|].
  intros family rows _ Hrows. now rewrite Hrows.
Qed.

Lemma C8_witness :
  let started := step Sample.authenticatedIdle (Focus Sample.january Sample.usd) in
  let s' := step started (Settle 0 Sample.accountsDown) in
  emitted started s' = [] /\
  unhandled s' = [] /\
  familyResults s' Accounts = None /\
  familyResults s' NetWorth = Some "rows" /\
  familyResults s' InsightCategories = Some "rows" /\
  familyResults s' InsightBudgets = Some "rows".
Proof.
  cbn zeta.
  destruct (C8_failed_family_is_swallowed
              (step Sample.authenticatedIdle (Focus Sample.january Sample.usd))
              0 Sample.accountsDown Accounts "Network Error"
              (RefreshCoordinator.fingerprint Sample.january Sample.usd)
              ltac:(vm_compute; reflexivity) eq_refl)
    as (_ & Hemit & Hun & _ & _ & Hfailed & Hkept).
  split; [exact Hemit|]. split; [exact Hun|]. split; [exact Hfailed|].
  repeat split; apply Hkept; (discriminate || reflexivity).
Defined.

(** C4, the claim as stated fails: when the biometric prompt is denied the
    guard redirects to login, and the header installed from the stored
    credential is still in the slot afterwards. *)
Lemma C4_counterexample :
  let before := Sample.loggedIn (Sample.now + 3600) in
  let env := Sample.answers (Fulfilled Sample.renewed) false (Fulfilled tt) in
  let after :=
    SessionGuard.establishSession (Sample.config Sample.server true) env before in
  existsb is_redirect (emitted before after) = true /\
  authorization after = Some (Bearer (Some (JStr "A"))).
Proof. cbn zeta. split; reflexivity. Qed.

(** C4 (amended).  The guard installs the stored access token in the
    header slot as soon as the stored credential passes the entry
    condition: the refresh call, when there is one, already carries it.  A
    successful refresh replaces it by the new access token, a failed one
    leaves it, and the currencies request carries what the slot holds at
    the end.  When the stored value does not pass the entry condition the
    guard leaves the slot as it was.  A redirect to login does not clear
    the slot: [goToOauth] leaves it as it is, and no event at all unsets a
    header that is set.  Every request for data made by the guard
    (currencies) or by the coordinator (the four families) carries a
    header: none is issued while the slot is unset. *)
Theorem C4_header_installed_never_cleared_guards_fetches :
  (forall cfg env s v,
     secureStore s = Some (Json v) ->
     SessionGuard.entryCheck cfg v = true ->
     let s' := SessionGuard.establishSession cfg env s in
     authorization s' =
       match isTokenFresh env v, refreshOutcome env with
       | false, Fulfilled fresh =>
           Some (Bearer (Some (JStr (accessToken fresh))))
       | _, _ => Some (Bearer (prop v "accessToken"))
       end /\
     Forall (fun x => is_refresh x = true ->
                      carried x = Some (Bearer (prop v "accessToken")))
       (emitted s s') /\
     Forall (fun x => is_currencies x = true -> carried x = authorization s')
       (emitted s s')) /\
  (forall cfg env s,
     (forall v, secureStore s = Some (Json v) ->
                SessionGuard.entryCheck cfg v = false) ->
     authorization (SessionGuard.establishSession cfg env s) = authorization s) /\
  (forall s, authorization (snd (SessionGuard.goToOauth s)) = authorization s) /\
  (forall s events,
     is_Some (authorization s) -> is_Some (authorization (run s events))) /\
  (forall s events, Forall authorized (emitted s (run s events))).
Proof.
  split; [|split; [|split; [|split]]].
  - intros cfg env s v Hstore Hentry. cbn zeta.
    guard_run; (split; [reflexivity|]);
      split; repeat constructor; cbn; intros; first [reflexivity|discriminate].
  - intros cfg env s. guard_run; intros Hrefused; try reflexivity.
    all: specialize (Hrefused _ eq_refl); congruence.
  - reflexivity.
  - apply run_keeps_header.
  - intros s events. destruct (run_trace s events) as (d & Hd & Hauth).
    now rewrite (emitted_app _ _ _ Hd).
Qed.

Lemma C4_witness :
  let cfg := Sample.config Sample.server true in
  let env := Sample.answers (Fulfilled Sample.renewed) false (Fulfilled tt) in
  let history :=
    [Focus Sample.january Sample.usd; Mount cfg env;
     Focus Sample.january None] in
  authorization
    (SessionGuard.establishSession cfg env (Sample.loggedIn (Sample.now - 1000)))
    = Some (Bearer (Some (JStr "B"))) /\
  is_Some (authorization (run Sample.authenticatedIdle history)) /\
  Forall authorized
    (emitted (Sample.loggedIn (Sample.now + 3600))
       (run (Sample.loggedIn (Sample.now + 3600)) history)).
Proof.
  cbn zeta. split; [|split].
  - refine (proj1 (proj1 C4_header_installed_never_cleared_guards_fetches
      (Sample.config Sample.server true)
      (Sample.answers (Fulfilled Sample.renewed) false (Fulfilled tt))
      (Sample.loggedIn (Sample.now - 1000))
      (Sample.tokens (Sample.now - 1000)) _ _)); reflexivity.
  - apply (proj1 (proj2 (proj2 (proj2
      C4_header_installed_never_cleared_guards_fetches)))).
    unfold Sample.authenticatedIdle, initial. cbn. eauto.
  - apply (proj2 (proj2 (proj2 (proj2
      C4_header_installed_never_cleared_guards_fetches)))).
Defined.

(** The fingerprint is compared as one string: different filter states can
    share it. *)
Example fingerprint_collision :
  RefreshCoordinator.fingerprint
    (Some {| start := Some "a-b"; end_ := Some "c" |}) Sample.usd =
  RefreshCoordinator.fingerprint
    (Some {| start := Some "a"; end_ := Some "b-c" |}) Sample.usd.
Proof. vm_compute. reflexivity. Qed.

(** When the first trigger comes before the guard has installed the
    header, nothing is fetched and the fingerprint is recorded all the
    same: the trigger that follows the mount fetches nothing either. *)
Example trigger_before_mount_is_lost :
  let cfg := Sample.config Sample.server false in
  let env := Sample.answers (Fulfilled Sample.renewed) true (Fulfilled tt) in
  filter is_family
    (trace (run (Sample.loggedIn (Sample.now + 3600))
              [Focus Sample.january Sample.usd; Mount cfg env;
               Focus Sample.january Sample.usd])) = [].
Proof. vm_compute. reflexivity. Qed.

(** * Further properties of the screen *)

(** ** SessionGuard: what a run can and cannot contain *)

(** X1.  With the biometric lock disabled the guard never prompts,
    whatever is stored and however the collaborators answer. *)
Theorem X1_lock_disabled_never_prompts
    (cfg : Config) (env : Env) (s : Screen) :
  faceId cfg = false ->
  filter is_prompt (emitted s (SessionGuard.establishSession cfg env s)) = [].
Proof. intros Hlock. guard_run; reflexivity. Qed.

Lemma X1_witness :
  filter is_prompt
    (emitted (Sample.loggedIn (Sample.now - 1000))
       (SessionGuard.establishSession (Sample.config Sample.server false)
          (Sample.answers (Fulfilled Sample.renewed) false (Fulfilled tt))
          (Sample.loggedIn (Sample.now - 1000)))) = [].
Proof.
  apply (X1_lock_disabled_never_prompts (Sample.config Sample.server false)).
  reflexivity.
Defined.

(** X2.  Every run of the guard starts with the one read of the store,
    and contains at most one refresh call, one biometric prompt, one
    navigation reset, one currencies request and one notification. *)
Theorem X2_guard_steps_happen_at_most_once
    (cfg : Config) (env : Env) (s : Screen) :
  let es := emitted s (SessionGuard.establishSession cfg env s) in
  (exists rest, es = StoreGet :: rest /\ filter is_store_get rest = []) /\
  length (filter is_refresh es) <= 1 /\
  length (filter is_prompt es) <= 1 /\
  length (filter is_redirect es) <= 1 /\
  length (filter is_currencies es) <= 1 /\
  length (filter is_toast es) <= 1.
Proof.
  cbn zeta.
  guard_run; (split; [eexists; split; reflexivity|]);
    repeat split; vm_compute; lia.
Qed.

(** X3.  A stored token that the library reports fresh is never
    refreshed, whatever the rest of the configuration. *)
Theorem X3_fresh_token_is_never_refreshed
    (cfg : Config) (env : Env) (s : Screen) (v : json) :
  secureStore s = Some (Json v) ->
  isTokenFresh env v = true ->
  filter is_refresh (emitted s (SessionGuard.establishSession cfg env s)) = [].
Proof. intros Hstore Hfresh. guard_run; reflexivity. Qed.

Lemma X3_witness :
  filter is_refresh
    (emitted (Sample.loggedIn (Sample.now + 3600))
       (SessionGuard.establishSession (Sample.config Sample.server true)
          (Sample.answers (Rejected "Network Error") true (Fulfilled tt))
          (Sample.loggedIn (Sample.now + 3600)))) = [].
Proof.
  apply (X3_fresh_token_is_never_refreshed
           (Sample.config Sample.server true)
           (Sample.answers (Rejected "Network Error") true (Fulfilled tt))
           (Sample.loggedIn (Sample.now + 3600))
           (Sample.tokens (Sample.now + 3600))); reflexivity.
Defined.


(** *** With every awaited call able to fail *)

Ltac fallible_unfold :=
  unfold FallibleGuard.establishSession, FallibleGuard.body,
    FallibleGuard.getItemAsync, FallibleGuard.faceIdCheck,
    FallibleGuard.authenticateAsync;
  guard_unfold.

Ltac fault_known :=
  repeat match goal with
  | H : storeFault ?f = _ |- context [storeFault ?f] => rewrite H
  | H : promptFault ?f = _ |- context [promptFault ?f] => rewrite H
  end.

Ltac fault_split :=
  match goal with
  | |- context [match storeFault ?f with _ => _ end] =>
      destruct (storeFault f) eqn:?
  | |- context [match promptFault ?f with _ => _ end] =>
      destruct (promptFault f) eqn:?
  end.

Ltac fallible_run :=
  fallible_unfold; cbn; fault_known; cbn; guard_known;
  rewrite ?entryCheck_null; cbn;
  repeat (first [fault_split|guard_split]; cbn); trace_simpl.

(** Pick the disjunct and the witnesses that the context offers. *)
Ltac solve_cases :=
  solve [ reflexivity | assumption
        | split; solve_cases
        | eexists; solve_cases
        | left; solve_cases
        | right; solve_cases ].

(** When the store read and the prompt resolve, the effect is the one of
    [SessionGuard]. *)
Lemma fallible_guard_without_faults
    (cfg : Config) (faults : Faults) (env : Env) (s : Screen) :
  storeFault faults = None -> promptFault faults = None ->
  FallibleGuard.establishSession cfg faults env s =
  SessionGuard.establishSession cfg env s.
Proof.
  intros Hstore Hprompt.
  unfold FallibleGuard.establishSession, FallibleGuard.body,
    FallibleGuard.getItemAsync, FallibleGuard.faceIdCheck,
    FallibleGuard.authenticateAsync.
  rewrite Hstore, Hprompt. reflexivity.
Qed.

(** X5.  With each of the four awaited calls able to fail, the error
    notification is shown exactly when the store was read, the stored
    credential passed the entry condition, and one of the three calls
    awaited inside the [try] is rejected: the refresh call (the token not
    being fresh); or, the run having got past the freshness step, the
    biometric prompt (the lock being on); or, the prompt not having been
    rejected, the currencies request. *)
Theorem X5_toast_iff_a_call_in_the_try_block_fails
    (cfg : Config) (faults : Faults) (env : Env) (s : Screen) :
  let es := emitted s (FallibleGuard.establishSession cfg faults env s) in
  existsb is_toast es = true <->
  exists v,
    storeFault faults = None /\
    secureStore s = Some (Json v) /\ SessionGuard.entryCheck cfg v = true /\
    ((isTokenFresh env v = false /\
      exists message, refreshOutcome env = Rejected message)
     \/ ((isTokenFresh env v = true \/
          exists fresh, refreshOutcome env = Fulfilled fresh) /\
         ((faceId cfg = true /\
           exists message, promptFault faults = Some message)
          \/ ((faceId cfg = false \/ promptFault faults = None) /\
              exists message, currenciesOutcome env = Rejected message)))).
Proof.
  cbn zeta. fallible_run; split.
  all: try (intros Hyes; discriminate Hyes).
  all: try (intros (v' & ? & ? & ? &
                    [[? [? ?]]|[[?|[? ?]] [[? [? ?]]|[[?|?] [? ?]]]]]);
            simplify_eq; first [reflexivity|congruence]).
  all: intros _; eexists; split; [reflexivity|]; split; [reflexivity|];
    split; [assumption|]; solve_cases.
Qed.

(** X6.  A currencies request that is rejected ends the run with the
    error notification whose description ends with the message of the
    rejection: the request and the notification are the last two effects,
    no other notification precedes them, and the header that the request
    carried is still in the slot. *)
Theorem X6_currencies_failure_is_notified
    (cfg : Config) (env : Env) (s : Screen) (message : string) :
  let s' := SessionGuard.establishSession cfg env s in
  existsb is_currencies (emitted s s') = true ->
  currenciesOutcome env = Rejected message ->
  exists before auth,
    emitted s s' =
      before ++
      [CurrenciesCall (Some auth);
       ToastShow (translate cfg "home_container_error_title")
         (translate cfg "home_container_error_description"
            +:+ ", " +:+ message)] /\
    existsb is_toast before = false /\
    authorization s' = Some auth.
Proof.
  cbn zeta. intros Hcall Hrejected. revert Hcall.
  guard_run; intros; try discriminate.
  all: first
    [eexists [_; _], _; cbn; split; [reflexivity|split; reflexivity]
    |eexists [_; _; _], _; cbn; split; [reflexivity|split; reflexivity]
    |eexists [_; _; _; _], _; cbn; split; [reflexivity|split; reflexivity]
    |eexists [_; _; _; _; _], _; cbn; split; [reflexivity|split; reflexivity]].
Qed.

Lemma X6_witness :
  let before := Sample.loggedIn (Sample.now + 3600) in
  let cfg := Sample.config Sample.server false in
  let env := Sample.answers (Fulfilled Sample.renewed) true (Rejected "500") in
  let after := SessionGuard.establishSession cfg env before in
  exists pre auth,
    emitted before after =
      pre ++
      [CurrenciesCall (Some auth);
       ToastShow "home_container_error_title"
         "home_container_error_description, 500"] /\
    existsb is_toast pre = false /\
    authorization after = Some auth.
Proof.
  cbn zeta.
  refine (X6_currencies_failure_is_notified
            (Sample.config Sample.server false)
            (Sample.answers (Fulfilled Sample.renewed) true (Rejected "500"))
            (Sample.loggedIn (Sample.now + 3600)) "500" _ _); reflexivity.
Defined.

(** X7.  A stored value that parses but offers no truthy [accessToken]
    (the key is missing, or holds an empty string, [null], [false] or [0],
    or the value is not an object at all) is redirected to login just like
    an absent one, whatever [backendURL] is: the store is read, the
    navigation is reset, and the header slot is left as it was. *)
Theorem X7_missing_access_token_redirects
    (cfg : Config) (env : Env) (s : Screen) (v : json) :
  secureStore s = Some (Json v) ->
  (forall fields, v <> JObj fields) \/ truthy (prop v "accessToken") = false ->
  let s' := SessionGuard.establishSession cfg env s in
  emitted s s' = [StoreGet; NavReset "oauth"] /\
  authorization s' = authorization s /\
  unhandled s' = unhandled s.
Proof.
  intros Hstore Hno. cbn zeta.
  assert (truthy (prop v "accessToken") = false) as Hfalsy.
  { destruct Hno as [Hshape|Hfalsy]; [|exact Hfalsy].
    destruct v; try reflexivity. now destruct (Hshape fields). }
  assert (SessionGuard.entryCheck cfg v = false) as Hentry.
  { unfold SessionGuard.entryCheck. rewrite Hfalsy.
    now destruct (truthy (Some v)). }
  destruct (refused_credential_redirects cfg env s v Hstore Hentry)
    as (? & ? & ? & _).
  auto.
Qed.

Lemma X7_witness :
  let before :=
    initial (Some (Json (JObj [("refreshToken", JStr "R")]))) None in
  let after :=
    SessionGuard.establishSession (Sample.config Sample.server true)
      (Sample.answers (Fulfilled Sample.renewed) true (Fulfilled tt)) before in
  emitted before after = [StoreGet; NavReset "oauth"] /\
  authorization after = authorization before /\
  unhandled after = unhandled before.
Proof.
  cbn zeta.
  refine (X7_missing_access_token_redirects
            (Sample.config Sample.server true)
            (Sample.answers (Fulfilled Sample.renewed) true (Fulfilled tt))
            (initial (Some (Json (JObj [("refreshToken", JStr "R")]))) None)
            (JObj [("refreshToken", JStr "R")]) _ _);
    [reflexivity|right; reflexivity].
Defined.

(** X8.  When the biometric prompt takes place and succeeds, the run ends
    as Authenticated: no navigation reset, and the currencies request
    follows the prompt at once, carrying the header that stays in the
    slot. *)
Theorem X8_accepted_biometric_authenticates
    (cfg : Config) (env : Env) (s : Screen) :
  let s' := SessionGuard.establishSession cfg env s in
  existsb is_prompt (emitted s s') = true ->
  bioSuccess env = true ->
  verdict_of s s' = Authenticated /\
  existsb is_redirect (emitted s s') = false /\
  exists before after auth,
    emitted s s' =
      before ++ [BiometricPrompt; CurrenciesCall (Some auth)] ++ after /\
    authorization s' = Some auth.
Proof.
  cbn zeta. intros Hprompt Haccepted. revert Hprompt.
  guard_run; intros; try discriminate.
  all: split; [reflexivity|split; [reflexivity|]].
  all: first
    [eexists [_; _], [], _; cbn; split; reflexivity
    |eexists [_; _], [_], _; cbn; split; reflexivity
    |eexists [_; _; _], [], _; cbn; split; reflexivity
    |eexists [_; _; _], [_], _; cbn; split; reflexivity].
Qed.

Lemma X8_witness :
  let before := Sample.loggedIn (Sample.now - 1000) in
  let cfg := Sample.config Sample.server true in
  let env := Sample.answers (Fulfilled Sample.renewed) true (Fulfilled tt) in
  verdict_of before (SessionGuard.establishSession cfg env before)
    = Authenticated.
Proof.
  cbn zeta.
  refine (proj1 (X8_accepted_biometric_authenticates
            (Sample.config Sample.server true)
            (Sample.answers (Fulfilled Sample.renewed) true (Fulfilled tt))
            (Sample.loggedIn (Sample.now - 1000)) _ _)); reflexivity.
Defined.

(** X9.  The two effects keep to their own state.  The mount effect issues
    no request for any of the four families and leaves [prevFiltersRef],
    the [isActive] flags, the pending batches and the families' results as
    they were.  The focus callback, its clean-up and the settlement of a
    batch leave the store and the header as they were, leave no rejection
    unhandled, and emit nothing but requests for the four families. *)
Theorem X9_guard_and_coordinator_are_separate (s : Screen) :
  (forall cfg env,
     let s' := SessionGuard.establishSession cfg env s in
     filter is_family (emitted s s') = [] /\
     prevFiltersRef s' = prevFiltersRef s /\ isActive s' = isActive s /\
     pending s' = pending s /\ familyResults s' = familyResults s) /\
  (forall e,
     (forall cfg env, e <> Mount cfg env) ->
     let s' := step s e in
     secureStore s' = secureStore s /\ authorization s' = authorization s /\
     unhandled s' = unhandled s /\
     forallb is_family (emitted s s') = true).
Proof.
  split.
  - intros cfg env. cbn zeta. guard_run; auto.
  - intros e Hcoord. cbn zeta.
    destruct e as [cfg env|rd cur|n|b outs]; cbn [step].
    + now destruct (Hcoord cfg env).
    + destruct (focusCallback_spec s rd cur)
        as (_ & Htrace & _ & _ & Hauth & Hstore & _ & Hun).
      rewrite (emitted_app _ _ _ Htrace).
      repeat split; try assumption.
      now destruct (_ && _).
    + rewrite emitted_refl by reflexivity. auto.
    + destruct (settle_spec s b outs) as (_ & Htrace & Hauth & Hun & _).
      rewrite (emitted_refl _ _ Htrace).
      repeat split; try assumption.
      unfold RefreshCoordinator.settle.
      destruct (pending s !! b); [|reflexivity].
      unfold fire_and_forget. now rewrite fetchDataResume_swallows.
Qed.

(** X10.  With each of the four awaited calls able to fail, a rejection
    escapes the mount effect in exactly two cases, both of them before the
    [try] block: the read of the secure store is rejected, or it resolves
    with a text that is not JSON.  The run then stops after the read of the
    store and leaves one unhandled rejection, with the message of the
    failure, and the header slot as it was.  In every other case (a
    rejected refresh call, prompt or currencies request included) nothing
    is left unhandled. *)
Theorem X10_only_failures_before_the_try_block_escape
    (cfg : Config) (faults : Faults) (env : Env) (s : Screen) :
  let s' := FallibleGuard.establishSession cfg faults env s in
  (forall message,
     storeFault faults = Some message \/
     (storeFault faults = None /\ secureStore s = Some (Malformed message)) ->
     emitted s s' = [StoreGet] /\
     unhandled s' = unhandled s ++ [message] /\
     authorization s' = authorization s) /\
  (storeFault faults = None ->
   (forall message, secureStore s <> Some (Malformed message)) ->
   unhandled s' = unhandled s).
Proof.
  cbn zeta. split.
  - intros message [Hfault|[Hfault Hstore]]; fallible_run; auto.
  - fallible_run; intros Hread Hparses; try reflexivity; try discriminate.
    all: now destruct (Hparses _ eq_refl).
Qed.

Lemma X10_witness :
  let s := Sample.loggedIn (Sample.now - 1000) in
  let cfg := Sample.config Sample.server true in
  let env := Sample.answers (Fulfilled Sample.renewed) true (Rejected "500") in
  (let s' :=
     FallibleGuard.establishSession cfg
       {| storeFault := Some "Could not decrypt"; promptFault := None |}
       env s in
   emitted s s' = [StoreGet] /\
   unhandled s' = unhandled s ++ ["Could not decrypt"] /\
   authorization s' = authorization s) /\
  unhandled
    (FallibleGuard.establishSession cfg
       {| storeFault := None; promptFault := Some "Cancelled" |} env s)
  = unhandled s.
Proof.
  cbn zeta. split.
  - refine (proj1 (X10_only_failures_before_the_try_block_escape
              (Sample.config Sample.server true)
              {| storeFault := Some "Could not decrypt"; promptFault := None |}
              (Sample.answers (Fulfilled Sample.renewed) true (Rejected "500"))
              (Sample.loggedIn (Sample.now - 1000)))
            "Could not decrypt" _).
    left. reflexivity.
  - refine (proj2 (X10_only_failures_before_the_try_block_escape
              (Sample.config Sample.server true)
              {| storeFault := None; promptFault := Some "Cancelled" |}
              (Sample.answers (Fulfilled Sample.renewed) true (Rejected "500"))
              (Sample.loggedIn (Sample.now - 1000))) _ _).
    + reflexivity.
    + intros message. discriminate.
Defined.

(** ** RefreshCoordinator: the flags, the batches and the count of requests *)

Lemma establishSession_isActive (cfg : Config) (env : Env) (s : Screen)
    (flags : list bool) :
  SessionGuard.establishSession cfg env (with_isActive flags s) =
  with_isActive flags (SessionGuard.establishSession cfg env s).
Proof. guard_unfold; cbn; repeat (guard_split; cbn); reflexivity. Qed.

Lemma settle_isActive (batch : nat) (outs : FetchFamily -> settled string)
    (s : Screen) (flags : list bool) :
  RefreshCoordinator.settle batch outs (with_isActive flags s) =
  with_isActive flags (RefreshCoordinator.settle batch outs s).
Proof.
  unfold RefreshCoordinator.settle. cbn [pending with_isActive].
  destruct (pending s !! batch); [|reflexivity].
  unfold fire_and_forget. now rewrite !fetchDataResume_swallows.
Qed.

Lemma focusCallback_isActive (rangeDetails : option RangeDetails)
    (currency : option Currency) (s : Screen) (flags : list bool) :
  length flags = length (isActive s) ->
  RefreshCoordinator.focusCallback rangeDetails currency
    (with_isActive flags s) =
  with_isActive (flags ++ [true])
    (RefreshCoordinator.focusCallback rangeDetails currency s).
Proof.
  intros Hlen.
  assert (default false ((flags ++ [true]) !! length (isActive s)) = true)
    as Hown by (now rewrite <- Hlen, list_lookup_middle).
  unfold RefreshCoordinator.focusCallback.
  cbn [prevFiltersRef isActive with_isActive]. rewrite Hlen.
  case_bool_decide; [|reflexivity].
  unfold fire_and_forget, RefreshCoordinator.fetchData, bind, read.
  cbn [isActive with_isActive authorization].
  rewrite Hown, own_isActive_is_true. cbn [andb].
  case_bool_decide; reflexivity.
Qed.

(** Two screens that differ at most in the values of the [isActive] flags
    stay so under every event. *)
Lemma step_isActive (s : Screen) (flags : list bool) (e : event) :
  length flags = length (isActive s) ->
  exists flags',
    step (with_isActive flags s) e = with_isActive flags' (step s e) /\
    length flags' = length (isActive (step s e)).
Proof.
  intros Hlen. destruct e as [cfg env|rd cur|n|b outs]; cbn [step].
  - exists flags. split; [apply establishSession_isActive|].
    now rewrite (proj1 (proj2 (establishSession_frame cfg env s))).
  - exists (flags ++ [true]). split; [now apply focusCallback_isActive|].
    destruct (focusCallback_spec s rd cur) as (_ & _ & _ & Hflags & _).
    rewrite Hflags, !length_app. cbn. lia.
  - exists (<[n:=false]> flags). split; [reflexivity|].
    cbn. now rewrite !length_insert.
  - exists flags. split; [apply settle_isActive|].
    now rewrite (proj2 (proj2 (proj2 (proj2 (settle_spec s b outs))))).
Qed.

Lemma run_isActive (events : list event) (s : Screen) (flags : list bool) :
  length flags = length (isActive s) ->
  exists flags',
    run (with_isActive flags s) events = with_isActive flags' (run s events) /\
    length flags' = length (isActive (run s events)).
Proof.
  revert s flags. induction events as [|e events IH]; intros s flags Hlen.
  - exists flags. auto.
  - destruct (step_isActive s flags e Hlen) as (flags1 & Hstep & Hlen1).
    destruct (IH (step s e) flags1 Hlen1) as (flags2 & Hrun & Hlen2).
    exists flags2. cbn [run fold_left]. fold (run (step s e) events).
    fold (run (step (with_isActive flags s) e) events).
    now rewrite Hstep.
Qed.

(** X11.  The clean-up function of the focus effect ([isActive = false])
    changes nothing that the screen ever looks at again: after any further
    events, the requests made, [prevFiltersRef], the pending batches, the
    families' results, the header, the store and the unhandled rejections
    are the same as if the clean-up had not run.  A batch started before
    the screen lost focus is neither cancelled nor ignored. *)
Theorem X11_cleanup_has_no_later_effect
    (s : Screen) (n : nat) (events : list event) :
  let without := run s events in
  let with_blur := run (step s (Blur n)) events in
  trace with_blur = trace without /\
  prevFiltersRef with_blur = prevFiltersRef without /\
  pending with_blur = pending without /\
  familyResults with_blur = familyResults without /\
  authorization with_blur = authorization without /\
  secureStore with_blur = secureStore without /\
  unhandled with_blur = unhandled without /\
  length (isActive with_blur) = length (isActive without).
Proof.
  cbn zeta.
  destruct (run_isActive events s (<[n:=false]> (isActive s)))
    as (flags & Hrun & Hlen); [apply length_insert|].
  change (step s (Blur n)) with (with_isActive (<[n:=false]> (isActive s)) s).
  rewrite Hrun. cbn. auto 10.
Qed.

Lemma step_pendingBounded (s : Screen) (e : event) :
  pendingBounded s -> pendingBounded (step s e).
Proof.
  unfold pendingBounded. intros Hs.
  destruct e as [cfg env|rd cur|n|b outs]; cbn [step]; intros batch.
  - destruct (establishSession_frame cfg env s) as (_ & -> & -> & _).
    apply Hs.
  - destruct (focusCallback_spec s rd cur) as (_ & _ & -> & -> & _).
    rewrite length_app. cbn [length].
    destruct (_ && _).
    + destruct (decide (batch = length (isActive s))) as [->|Hother];
        [lia|].
      rewrite lookup_insert_ne by auto. intros Hb%Hs. lia.
    + intros Hb%Hs. lia.
  - cbn. rewrite length_insert. apply Hs.
  - destruct (settle_spec s b outs) as (_ & _ & _ & _ & ->).
    unfold RefreshCoordinator.settle.
    destruct (pending s !! b) eqn:Hb; [|apply Hs].
    unfold fire_and_forget. rewrite fetchDataResume_swallows. cbn.
    destruct (decide (b = batch)) as [->|Hother].
    + rewrite lookup_delete_eq. now intros [? ?].
    + rewrite lookup_delete_ne by auto. apply Hs.
Qed.

Lemma run_pendingBounded (s : Screen) (events : list event) :
  pendingBounded s -> pendingBounded (run s events).
Proof.
  induction events as [|e events IH] using rev_ind; [easy|].
  intros Hs. rewrite run_snoc. apply step_pendingBounded. auto.
Qed.

Lemma initial_pendingBounded (store : option stored) (auth : option header) :
  pendingBounded (initial store auth).
Proof. intros batch [key Hkey]. cbn in Hkey. now rewrite lookup_empty in Hkey. Qed.

(** X12.  In every state that the screen reaches from its initial state,
    the batch that a trigger starts is a new one: its number is not that of
    a batch still pending, so a trigger that issues requests makes the
    pending batches one more, and a trigger that issues none leaves them as
    they are. *)
Theorem X12_started_batch_is_new
    (store : option stored) (auth : option header) (history : list event)
    (rangeDetails : option RangeDetails) (currency : option Currency) :
  let s := run (initial store auth) history in
  let s' := step s (Focus rangeDetails currency) in
  pending s !! length (isActive s) = None /\
  (emitted s s' <> [] -> size (pending s') = S (size (pending s))) /\
  (emitted s s' = [] -> pending s' = pending s).
Proof.
  cbn zeta.
  pose proof (run_pendingBounded _ history (initial_pendingBounded store auth))
    as Hbound.
  set (s := run (initial store auth) history) in *.
  assert (pending s !! length (isActive s) = None) as Hnew.
  { destruct (pending s !! length (isActive s)) eqn:Hlook; [|reflexivity].
    assert (length (isActive s) < length (isActive s)); [|lia].
    apply Hbound. eauto. }
  split; [exact Hnew|].
  rewrite focus_emits. cbn [step].
  destruct (focusCallback_spec s rangeDetails currency) as (_ & _ & -> & _).
  destruct (_ && _).
  - split; [intros _; now apply map_size_insert_None|discriminate].
  - split; [congruence|reflexivity].
Qed.

Lemma establishSession_no_family (cfg : Config) (env : Env) (s : Screen) :
  filter is_family (emitted s (SessionGuard.establishSession cfg env s)) = [].
Proof. guard_run; reflexivity. Qed.

Lemma emitted_step_run (s : Screen) (e : event) (events : list event) :
  emitted s (run s (e :: events)) =
  emitted s (step s e) ++ emitted (step s e) (run (step s e) events).
Proof.
  destruct (step_trace s e) as (d & Hd & _).
  destruct (run_trace (step s e) events) as (d' & Hd' & _).
  rewrite (emitted_app _ _ _ Hd), (emitted_app _ _ _ Hd').
  apply emitted_app. cbn [run fold_left]. fold (run (step s e) events).
  now rewrite Hd', Hd, app_assoc.
Qed.

(** The family requests of one step, counted. *)
Lemma step_family_count (s : Screen) (e : event) :
  length (filter is_family (emitted s (step s e))) =
  match e with
  | Focus rangeDetails currency =>
      if bool_decide
           (prevFiltersRef s
            <> Some (RefreshCoordinator.fingerprint rangeDetails currency))
         && bool_decide (is_Some (authorization s))
      then 4 else 0
  | _ => 0
  end.
Proof.
  destruct e as [cfg env|rd cur|n|b outs]; cbn [step].
  - now rewrite establishSession_no_family.
  - fold (step s (Focus rd cur)). rewrite focus_emits.
    now destruct (_ && _).
  - now rewrite emitted_refl.
  - now rewrite (emitted_refl _ _ (proj1 (proj2 (settle_spec s b outs)))).
Qed.

Lemma family_count_le (events : list event) (s : Screen) :
  length (filter is_family (emitted s (run s events)))
  <= 4 * changes (prevFiltersRef s) events.
Proof.
  revert s. induction events as [|e events IH]; intros s.
  - cbn [run fold_left]. now rewrite emitted_refl.
  - rewrite emitted_step_run, filter_app, length_app, step_family_count.
    specialize (IH (step s e)). rewrite step_prevFilters in IH.
    destruct e as [cfg env|rd cur|n|b outs]; cbn [changes lastTrigger fold_left] in *;
      try lia.
    repeat case_bool_decide; cbn [andb]; lia.
Qed.

Lemma family_count_eq (events : list event) (s : Screen) :
  is_Some (authorization s) ->
  length (filter is_family (emitted s (run s events)))
  = 4 * changes (prevFiltersRef s) events.
Proof.
  revert s. induction events as [|e events IH]; intros s Hauth.
  - cbn [run fold_left]. now rewrite emitted_refl.
  - rewrite emitted_step_run, filter_app, length_app, step_family_count.
    specialize (IH (step s e) (step_keeps_header s e Hauth)).
    rewrite step_prevFilters in IH.
    destruct e as [cfg env|rd cur|n|b outs]; cbn [changes lastTrigger fold_left] in *;
      try lia.
    rewrite (bool_decide_eq_true_2 _ Hauth).
    case_bool_decide; cbn [andb]; lia.
Qed.

(** X13.  Over any history of events, the requests made for the four
    families are at most four for each trigger whose fingerprint differs
    from the one recorded before it, and exactly that many when the header
    is set at the start (it then stays set).  Mounts, losses of focus,
    settlements and triggers that repeat the recorded fingerprint add
    none. *)
Theorem X13_four_requests_per_changed_fingerprint
    (s : Screen) (events : list event) :
  let requests := filter is_family (emitted s (run s events)) in
  length requests <= 4 * changes (prevFiltersRef s) events /\
  (is_Some (authorization s) ->
   length requests = 4 * changes (prevFiltersRef s) events).
Proof. cbn zeta. split; [apply family_count_le|apply family_count_eq]. Qed.

Lemma X13_witness :
  let history :=
    [Focus Sample.january Sample.usd; Blur 0; Settle 0 Sample.accountsDown;
     Focus Sample.january Sample.usd; Focus Sample.january None;
     Focus Sample.january Sample.usd] in
  length (filter is_family
            (emitted Sample.authenticatedIdle
               (run Sample.authenticatedIdle history))) = 12.
Proof.
  cbn zeta.
  refine (proj2 (X13_four_requests_per_changed_fingerprint
            Sample.authenticatedIdle
            [Focus Sample.january Sample.usd; Blur 0;
             Settle 0 Sample.accountsDown;
             Focus Sample.january Sample.usd; Focus Sample.january None;
             Focus Sample.january Sample.usd]) _).
  unfold Sample.authenticatedIdle, initial. cbn. eauto.
Defined.

(** ** The fingerprint as a key *)

Lemma append_inj_length (a a' b b' : string) :
  String.length a = String.length a' ->
  a +:+ b = a' +:+ b' -> a = a' /\ b = b'.
Proof.
  revert a'. induction a as [|c a IH]; intros [|c' a'] Hlen Heq;
    try discriminate Hlen.
  - auto.
  - cbn in Hlen, Heq. injection Hlen as Hlen. injection Heq as -> Heq.
    destruct (IH a' Hlen Heq) as [-> ->]. auto.
Qed.

Lemma dash_inj (a b : string) : "-" +:+ a = "-" +:+ b -> a = b.
Proof. intros H. injection H as H. exact H. Qed.

(** X14.  When the two range starts have the same length and the two range
    ends have the same length, as dates of one format do, equal
    fingerprints mean equal components: the start, the end and the
    currency id, each as the template renders it, are the same. *)
Theorem X14_fingerprint_separates_dates_of_equal_length
    (rangeDetails rangeDetails' : option RangeDetails)
    (currency currency' : option Currency) :
  String.length (hole (rangeDetails ≫= start)) =
    String.length (hole (rangeDetails' ≫= start)) ->
  String.length (hole (rangeDetails ≫= end_)) =
    String.length (hole (rangeDetails' ≫= end_)) ->
  RefreshCoordinator.fingerprint rangeDetails currency =
    RefreshCoordinator.fingerprint rangeDetails' currency' ->
  hole (rangeDetails ≫= start) = hole (rangeDetails' ≫= start) /\
  hole (rangeDetails ≫= end_) = hole (rangeDetails' ≫= end_) /\
  hole (currency ≫= currency_id) = hole (currency' ≫= currency_id).
Proof.
  unfold RefreshCoordinator.fingerprint. intros Hstart Hend Hkey.
  apply append_inj_length in Hkey as [Hs Hrest]; [|exact Hstart].
  apply dash_inj in Hrest.
  apply append_inj_length in Hrest as [He Hrest]; [|exact Hend].
  apply dash_inj in Hrest. auto.
Qed.

Lemma X14_witness :
  let spelled :=
    Some {| start := Some "undefined"; end_ := Some "undefined" |} in
  hole (None ≫= start) = hole (spelled ≫= start) /\
  hole (None ≫= end_) = hole (spelled ≫= end_) /\
  hole (Sample.usd ≫= currency_id) = hole (Sample.usd ≫= currency_id).
Proof.
  cbn zeta.
  exact (X14_fingerprint_separates_dates_of_equal_length
           None
           (Some {| start := Some "undefined"; end_ := Some "undefined" |})
           Sample.usd Sample.usd eq_refl eq_refl eq_refl).
Defined.

(** ** The panels *)

Section PanelRows.

Context {amount : Type} (localNumberFormat : string -> amount -> string).

(** The accounts panel shows the active accounts, all of them and
    only them, in the order of the list; each row carries the name of its
    account, and the starred note exactly when the account is left out of
    the net worth.  An [accounts] that is [undefined] gives no row. *)
Lemma accounts_panel_lists_active_accounts
    (loading : bool) (accounts : list (Panels.AssetsAccounts.Account amount)) :
  let rows :=
    Panels.AssetsAccounts.rows localNumberFormat loading (Some accounts) in
  map (fun row => (Panels.AssetsAccounts.title row,
                   Panels.AssetsAccounts.note row)) rows =
  map (fun a =>
         (Panels.AssetsAccounts.name (Panels.AssetsAccounts.attributes a),
          if Panels.AssetsAccounts.include_net_worth
               (Panels.AssetsAccounts.attributes a)
          then "" else "(*)"))
    (List.filter
       (fun a => Panels.AssetsAccounts.active
                   (Panels.AssetsAccounts.attributes a)) accounts) /\
  length rows =
    length (List.filter
              (fun a => Panels.AssetsAccounts.active
                          (Panels.AssetsAccounts.attributes a)) accounts) /\
  Panels.AssetsAccounts.rows localNumberFormat loading None = [].
Proof.
  cbn zeta. unfold Panels.AssetsAccounts.rows.
  split; [|split; [apply length_imap|reflexivity]].
  change (map ?f ?l) with (f <$> l).
  rewrite fmap_imap. etrans; [|apply imap_const].
  apply imap_ext. intros i a _. reflexivity.
Qed.

(** X16.  In the accounts panel and in the categories panel the rows are
    separated by a bottom border of width 1, and the last row, and no
    other, has none (width 0).  In the accounts panel the last row is the
    last active account, not the last account. *)
Theorem X16_only_the_last_row_has_no_border
    (loading : bool) (accounts : list (Panels.AssetsAccounts.Account amount))
    (insightCategories : list (Panels.InsightCategories.Category amount)) :
  (forall index row,
     Panels.AssetsAccounts.rows localNumberFormat loading (Some accounts)
       !! index = Some row ->
     (Panels.AssetsAccounts.borderBottomWidth row = 0 <->
      index + 1 =
        length (Panels.AssetsAccounts.rows localNumberFormat loading
                  (Some accounts))) /\
     (Panels.AssetsAccounts.borderBottomWidth row = 0 \/
      Panels.AssetsAccounts.borderBottomWidth row = 1)) /\
  (forall index row,
     Panels.InsightCategories.rows localNumberFormat loading insightCategories
       !! index = Some row ->
     (Panels.InsightCategories.borderBottomWidth row = 0 <->
      index + 1 =
        length (Panels.InsightCategories.rows localNumberFormat loading
                  insightCategories)) /\
     (Panels.InsightCategories.borderBottomWidth row = 0 \/
      Panels.InsightCategories.borderBottomWidth row = 1)).
Proof.
  split; intros index row Hrow.
  - unfold Panels.AssetsAccounts.rows in *. rewrite length_imap.
    apply list_lookup_imap_Some in Hrow as (a & _ & ->). cbn.
    case_bool_decide; split; auto; split; congruence.
  - unfold Panels.InsightCategories.rows in *. rewrite length_imap.
    apply list_lookup_imap_Some in Hrow as (c & _ & ->). cbn.
    case_bool_decide; split; auto; split; congruence.
Qed.

(** While the data is loading every row of the two panels shows the
    placeholder and no amount is formatted; once it is loaded every row
    shows the amount formatted by [localNumberFormat] from the currency
    code and the amount of its own item. *)
Lemma rows_show_placeholder_while_loading
    (loading : bool) (accounts : list (Panels.AssetsAccounts.Account amount))
    (insightCategories : list (Panels.InsightCategories.Category amount)) :
  map Panels.AssetsAccounts.balance
    (Panels.AssetsAccounts.rows localNumberFormat loading (Some accounts)) =
  map (fun a =>
         if loading then Panels.Skeleton 70 5
         else Panels.Formatted
                (localNumberFormat
                   (Panels.AssetsAccounts.currency_code
                      (Panels.AssetsAccounts.attributes a))
                   (Panels.AssetsAccounts.current_balance
                      (Panels.AssetsAccounts.attributes a))))
    (List.filter
       (fun a => Panels.AssetsAccounts.active
                   (Panels.AssetsAccounts.attributes a)) accounts) /\
  map Panels.InsightCategories.difference
    (Panels.InsightCategories.rows localNumberFormat loading
       insightCategories) =
  map (fun c =>
         if loading then Panels.Skeleton 70 5
         else Panels.Formatted
                (localNumberFormat (Panels.InsightCategories.currency_code c)
                   (Panels.InsightCategories.difference_float c)))
    insightCategories.
Proof.
  unfold Panels.AssetsAccounts.rows, Panels.InsightCategories.rows.
  change (map ?f ?l) with (f <$> l).
  rewrite !fmap_imap.
  split; (etrans; [|apply imap_const]); apply imap_ext; intros i x _; cbn;
    now destruct loading.
Qed.

End PanelRows.

(** X17.  The screen shows at most one of the three panels, and exactly
    one, the matching one, for each of the values that the tab control
    offers; at first that is the accounts panel.  For any other tab value
    no panel is shown. *)
Theorem X17_one_panel_per_tab (tab : string) :
  length (Panels.Tabs.panels tab) <= 1 /\
  (tab ∈ Panels.Tabs.values <-> length (Panels.Tabs.panels tab) = 1) /\
  Panels.Tabs.panels "home_accounts" = [Panels.Tabs.AssetsAccountsPanel] /\
  Panels.Tabs.panels "home_categories" = [Panels.Tabs.InsightCategoriesPanel] /\
  Panels.Tabs.panels "home_budgets" = [Panels.Tabs.InsightBudgetsPanel] /\
  Panels.Tabs.panels Panels.Tabs.initialTab = [Panels.Tabs.AssetsAccountsPanel].
Proof.
  unfold Panels.Tabs.panels, Panels.Tabs.values.
  split; [|split; [|repeat split; reflexivity]].
  - destruct (String.eqb_spec tab "home_accounts") as [->|?]; [cbn; lia|].
    destruct (String.eqb_spec tab "home_categories") as [->|?]; [cbn; lia|].
    destruct (String.eqb_spec tab "home_budgets") as [->|?]; cbn; lia.
  - rewrite !elem_of_cons, elem_of_nil.
    destruct (String.eqb_spec tab "home_accounts") as [->|?]; [cbn; tauto|].
    destruct (String.eqb_spec tab "home_categories") as [->|?]; [cbn; tauto|].
    destruct (String.eqb_spec tab "home_budgets") as [->|?]; cbn;
      [tauto|]. split; [tauto|discriminate].
Qed.
